(** * workday-commits: a shallow embedding of [generate_workday_commits.py]

    The script expands a date range into its Monday-to-Friday dates, removes
    a random sample of vacation days, draws commits for every remaining day
    and prints them as a shell script.  Randomness is the only effect besides
    the exceptions Python raises, so every function that draws is a state
    and error monad over a tape of draws: a theorem that quantifies over the
    tape holds for every run of the program. *)

From Stdlib Require Import ZArith List Lia Bool.
From Stdlib Require Import Strings.Ascii Strings.String.
From Stdlib Require Import Sorting.Sorted Sorting.Permutation.
From Stdlib Require Import Floats.PrimFloat Floats.FloatOps Floats.SpecFloat.
From Stdlib Require Import Numbers.Cyclic.Int63.Uint63.
Import ListNotations.

Open Scope Z_scope.

(** ** Exceptions and the random source *)

(** The exceptions the script can let escape. *)
Inductive exn : Type :=
| ValueError
| IndexError
| KeyError
| OverflowError.

(** The process-wide generator [random]: a tape of draws and the position of
    the next one.  Nothing is assumed of the tape's contents. *)
Record rng : Type := mkRng { tape : nat -> Z; pos : nat }.

Definition M (A : Type) : Type := rng -> exn + (A * rng).

Definition ret {A} (a : A) : M A := fun g => inr (a, g).

Definition raise {A} (e : exn) : M A := fun _ => inl e.

Definition bind {A B} (m : M A) (f : A -> M B) : M B :=
  fun g => match m g with
           | inl e => inl e
           | inr (a, g') => f a g'
           end.

Definition lift {A} (r : exn + A) : M A :=
  match r with
  | inl e => raise e
  | inr a => ret a
  end.

Notation "x <- m ;; k" := (bind m (fun x => k))
  (at level 61, m at next level, right associativity).

Notation "' pat <- m ;; k" := (bind m (fun x => match x with pat => k end))
  (at level 61, pat pattern, m at next level, right associativity).

(** [for a in l: bs.append(f(a))] *)
Fixpoint mapM {A B} (f : A -> M B) (l : list A) : M (list B) :=
  match l with
  | [] => ret []
  | a :: l' => b <- f a ;; bs <- mapM f l' ;; ret (b :: bs)
  end.

Definition len {A} (l : list A) : Z := Z.of_nat (List.length l).

Module Random.

(** [random._randbelow(n)] for [n > 0]: some value of [0, n). *)
Definition randbelow (n : Z) : M Z :=
  fun g => inr (tape g (pos g) mod n, mkRng (tape g) (S (pos g))).

(** [random.randint(a, b)]: [randrange(a, b + 1)], which raises
    [ValueError] on an empty range. *)
Definition randint (a b : Z) : M Z :=
  if b <? a then raise ValueError
  else j <- randbelow (b - a + 1) ;; ret (a + j).

(** [random.choice(seq)]: [seq[_randbelow(len(seq))]], [IndexError] on an
    empty sequence. *)
Definition choice {A} (seq : list A) : M A :=
  match seq with
  | [] => raise IndexError
  | d :: _ => j <- randbelow (len seq) ;; ret (nth (Z.to_nat j) seq d)
  end.

(** The pool of [random.sample] after position [j] was selected. *)
Fixpoint remove_nth {A} (j : nat) (pool : list A) : list A :=
  match pool, j with
  | [], _ => []
  | _ :: pool', O => pool'
  | x :: pool', S j' => x :: remove_nth j' pool'
  end.

(** [k] selections without replacement: each draw picks a position of the
    pool that is left. *)
Fixpoint sample_pool {A} (k : nat) (pool : list A) : M (list A) :=
  match k with
  | O => ret []
  | S k' =>
      match pool with
      | [] => ret []
      | d :: _ =>
          j <- randbelow (len pool) ;;
          rest <- sample_pool k' (remove_nth (Z.to_nat j) pool) ;;
          ret (nth (Z.to_nat j) pool d :: rest)
      end
  end.

(** [random.sample(population, k)]: [ValueError] unless
    [0 <= k <= len(population)], else [k] elements at distinct positions.
    The order of the result within the library (it moves the last pool
    element into the vacancy, or rejects repeated positions for a large
    population) is not kept: the script sorts the result or only tests
    membership in it. *)
Definition sample {A} (population : list A) (k : Z) : M (list A) :=
  if (k <? 0) || (len population <? k) then raise ValueError
  else sample_pool (Z.to_nat k) population.

End Random.

(** ** Dates *)

(** A [datetime] is kept as its proleptic Gregorian ordinal
    ([date.toordinal()], 1 for 0001-01-01) and its time of day; year, month
    and day are recovered by [ord2ymd], as [datetime] does after arithmetic
    with a [timedelta]. *)
Record datetime : Type := mkDatetime {
  ordinal : Z;
  hour : Z;
  minute : Z;
  second : Z
}.

Definition MAXORDINAL : Z := 3652059.

Definition is_leap (y : Z) : bool :=
  (y mod 4 =? 0) && (negb (y mod 100 =? 0) || (y mod 400 =? 0)).

Definition days_before_year (y : Z) : Z :=
  let y1 := y - 1 in y1 * 365 + y1 / 4 - y1 / 100 + y1 / 400.

Definition DAYS_IN_MONTH : list Z :=
  [-1; 31; 28; 31; 30; 31; 30; 31; 31; 30; 31; 30; 31].

Definition DAYS_BEFORE_MONTH : list Z :=
  [-1; 0; 31; 59; 90; 120; 151; 181; 212; 243; 273; 304; 334].

Definition days_in_month (y m : Z) : Z :=
  if (m =? 2) && is_leap y then 29 else nth (Z.to_nat m) DAYS_IN_MONTH 0.

Definition days_before_month (y m : Z) : Z :=
  nth (Z.to_nat m) DAYS_BEFORE_MONTH 0 + (if (2 <? m) && is_leap y then 1 else 0).

Definition ymd2ord (y m d : Z) : Z :=
  days_before_year y + days_before_month y m + d.

(** [datetime(year, month, day)]: midnight of a valid date, else
    [ValueError]. *)
Definition datetime_ymd (y m d : Z) : exn + datetime :=
  if (1 <=? y) && (y <=? 9999) && (1 <=? m) && (m <=? 12)
     && (1 <=? d) && (d <=? days_in_month y m)
  then inr (mkDatetime (ymd2ord y m d) 0 0 0)
  else inl ValueError.

Definition DI400Y : Z := 146097.
Definition DI100Y : Z := 36524.
Definition DI4Y : Z := 1461.

(** [_ord2ymd] of CPython's [datetime]. *)
Definition ord2ymd (n : Z) : Z * Z * Z :=
  let n := n - 1 in
  let n400 := n / DI400Y in
  let n := n mod DI400Y in
  let year := n400 * 400 + 1 in
  let n100 := n / DI100Y in
  let n := n mod DI100Y in
  let n4 := n / DI4Y in
  let n := n mod DI4Y in
  let n1 := n / 365 in
  let n := n mod 365 in
  let year := year + n100 * 100 + n4 * 4 + n1 in
  if (n1 =? 4) || (n100 =? 4) then (year - 1, 12, 31)
  else
    let leapyear := (n1 =? 3) && (negb (n4 =? 24) || (n100 =? 3)) in
    let month := Z.shiftr (n + 50) 5 in
    let preceding :=
      nth (Z.to_nat month) DAYS_BEFORE_MONTH 0
      + (if (2 <? month) && leapyear then 1 else 0) in
    if n <? preceding then
      let month := month - 1 in
      let preceding :=
        preceding - (nth (Z.to_nat month) DAYS_IN_MONTH 0
                     + (if (month =? 2) && leapyear then 1 else 0)) in
      (year, month, n - preceding + 1)
    else (year, month, n - preceding + 1).

(** [date.weekday()]: Monday is 0. *)
Definition weekday (d : datetime) : Z := (ordinal d + 6) mod 7.

(** [d + timedelta(days=n)]: [OverflowError] outside years 1..9999. *)
Definition add_days (d : datetime) (n : Z) : exn + datetime :=
  let o := ordinal d + n in
  if (1 <=? o) && (o <=? MAXORDINAL)
  then inr (mkDatetime o (hour d) (minute d) (second d))
  else inl OverflowError.

(** [current += timedelta(days=1)] inside the collecting loop, where
    [current < end_date] keeps the sum in range. *)
Definition next_day (d : datetime) : datetime :=
  mkDatetime (ordinal d + 1) (hour d) (minute d) (second d).

(** [date.replace(hour=h, minute=m, second=s)] for a time in range. *)
Definition replace (d : datetime) (h m s : Z) : datetime :=
  mkDatetime (ordinal d) h m s.

Definition datetime_eqb (a b : datetime) : bool :=
  (ordinal a =? ordinal b) && (hour a =? hour b)
  && (minute a =? minute b) && (second a =? second b).

(** [a < b] on datetimes: the fields compared in order. *)
Definition datetime_ltb (a b : datetime) : bool :=
  (ordinal a <? ordinal b)
  || ((ordinal a =? ordinal b)
      && ((hour a <? hour b)
          || ((hour a =? hour b)
              && ((minute a <? minute b)
                  || ((minute a =? minute b) && (second a <? second b)))))).

Definition datetime_leb (a b : datetime) : bool := negb (datetime_ltb b a).

(** ** Strings *)

Open Scope string_scope.
Open Scope Z_scope.

Definition dquote : string := String "034"%char "".
Definition newline : string := String "010"%char "".
Definition apostrophe : ascii := "039"%char.

Definition DIGITS : list ascii :=
  ["0"; "1"; "2"; "3"; "4"; "5"; "6"; "7"; "8"; "9"]%char%list.

Definition digit_char (k : Z) : ascii := nth (Z.to_nat k) DIGITS "9"%char.

Definition digit_val (c : ascii) : option Z :=
  let n := Z.of_nat (nat_of_ascii c) in
  if (48 <=? n) && (n <=? 57) then Some (n - 48) else None.

(** [%m], [%d], [%H], [%M], [%S]: two digits. *)
Definition pad2 (n : Z) : string :=
  String (digit_char (n / 10 mod 10)) (String (digit_char (n mod 10)) "").

(** The four digits of a year from 1000 on. *)
Definition pad4 (n : Z) : string :=
  String (digit_char (n / 1000 mod 10))
    (String (digit_char (n / 100 mod 10)) (pad2 n)).

(** [%Y], as the C library prints it for CPython on Linux: the decimal
    digits of the year without padding, so a year below 1000 has fewer
    than four digits. *)
Definition year_text (y : Z) : string :=
  if y <? 10 then String (digit_char (y mod 10)) ""
  else if y <? 100 then pad2 y
  else if y <? 1000 then String (digit_char (y / 100 mod 10)) (pad2 y)
  else pad4 y.

(** [%Y-%m-%d] *)
Definition date_text (t : datetime) : string :=
  let '(y, m, d) := ord2ymd (ordinal t) in
  year_text y ++ "-" ++ pad2 m ++ "-" ++ pad2 d.

(** [%H:%M:%S] *)
Definition time_text (t : datetime) : string :=
  pad2 (hour t) ++ ":" ++ pad2 (minute t) ++ ":" ++ pad2 (second t).

(** [t.strftime("%Y-%m-%d" + sep + "%H:%M:%S")]. *)
Definition strftime (sep : string) (t : datetime) : string :=
  date_text t ++ sep ++ time_text t.

Definition two_digits (a b : ascii) : option Z :=
  match digit_val a, digit_val b with
  | Some x, Some y => Some (10 * x + y)
  | _, _ => None
  end.

(** The month of [%m], whose pattern is [1[0-2]|0[1-9]|[1-9]], and what
    follows the dash after it. *)
Definition parse_month (s : string) : option (Z * string) :=
  match s with
  | String a (String b (String "-" rest)) =>
      match two_digits a b with
      | Some m => if (1 <=? m) && (m <=? 12) then Some (m, rest) else None
      | None => None
      end
  | String a (String "-" rest) =>
      match digit_val a with
      | Some m => if 1 <=? m then Some (m, rest) else None
      | None => None
      end
  | _ => None
  end.

(** The day of [%d], whose pattern is [3[0-1]|[1-2]\d|0[1-9]|[1-9]| [1-9]],
    at the end of the string (anything left over is unconverted data). *)
Definition parse_day (s : string) : option Z :=
  match s with
  | String a (String b "") =>
      match two_digits a b with
      | Some d => if (1 <=? d) && (d <=? 31) then Some d else None
      | None =>
          if Ascii.eqb a " " then
            match digit_val b with
            | Some d => if 1 <=? d then Some d else None
            | None => None
            end
          else None
      end
  | String a "" =>
      match digit_val a with
      | Some d => if 1 <=? d then Some d else None
      | None => None
      end
  | _ => None
  end.

(** [datetime.strptime(s, "%Y-%m-%d")] on a string of ASCII characters. *)
Definition strptime (s : string) : exn + datetime :=
  match s with
  | String y1 (String y2 (String y3 (String y4 (String "-" rest)))) =>
      match two_digits y1 y2, two_digits y3 y4, parse_month rest with
      | Some hi, Some lo, Some (m, rest') =>
          match parse_day rest' with
          | Some d => datetime_ymd (100 * hi + lo) m d
          | None => inl ValueError
          end
      | _, _, _ => inl ValueError
      end
  | _ => inl ValueError
  end.

(** [str.isspace] on the characters below 256. *)
Definition is_space (c : ascii) : bool :=
  let n := nat_of_ascii c in
  ((9 <=? n) && (n <=? 13) || (28 <=? n) && (n <=? 32)
   || (n =? 133) || (n =? 160))%nat.

Definition is_empty (s : string) : bool :=
  match s with
  | "" => true
  | _ => false
  end.

(** [s.rstrip()] *)
Fixpoint rstrip (s : string) : string :=
  match s with
  | "" => ""
  | String c s' =>
      let r := rstrip s' in
      if is_empty r && is_space c then "" else String c r
  end.

Fixpoint string_forall (p : ascii -> bool) (s : string) : bool :=
  match s with
  | "" => true
  | String c s' => p c && string_forall p s'
  end.

Fixpoint count_char (c : ascii) (s : string) : nat :=
  match s with
  | "" => O
  | String c' s' => ((if Ascii.eqb c c' then 1 else 0) + count_char c s')%nat
  end.

(** ** [str.format] with keyword arguments *)

(** A format string read as literal characters and replacement fields.  The
    text of a field up to its closing brace is taken as the field's name;
    conversions and format specifications are left out, no template of the
    script has any. *)
Inductive piece : Type :=
| Lit (c : ascii)
| Field (name : string).

Definition cons_piece (p : piece) (r : exn + list piece) : exn + list piece :=
  match r with
  | inl e => inl e
  | inr ps => inr (p :: ps)
  end.

(** [field] is [Some name] inside a replacement field whose text so far is
    [name].  A doubled brace is a literal brace, a single closing brace or a
    field left open is a [ValueError]. *)
Fixpoint parse_format (field : option string) (s : string) : exn + list piece :=
  match s with
  | "" =>
      match field with
      | None => inr []
      | Some _ => inl ValueError
      end
  | String c rest =>
      match field with
      | Some name =>
          if Ascii.eqb c "}" then cons_piece (Field name) (parse_format None rest)
          else parse_format (Some (name ++ String c "")) rest
      | None =>
          if Ascii.eqb c "{" then
            match rest with
            | String c' rest' =>
                if Ascii.eqb c' "{" then cons_piece (Lit c) (parse_format None rest')
                else parse_format (Some "") rest
            | "" => parse_format (Some "") rest
            end
          else if Ascii.eqb c "}" then
            match rest with
            | String c' rest' =>
                if Ascii.eqb c' "}" then cons_piece (Lit c) (parse_format None rest')
                else inl ValueError
            | "" => inl ValueError
            end
          else cons_piece (Lit c) (parse_format None rest)
      end
  end.

Fixpoint lookup {A} (key : string) (kw : list (string * A)) : exn + A :=
  match kw with
  | [] => inl KeyError
  | (k, v) :: kw' => if String.eqb key k then inr v else lookup key kw'
  end.

Definition is_digit (c : ascii) : bool :=
  match digit_val c with
  | Some _ => true
  | None => false
  end.

(** An empty or numeric field name is positional, and no positional
    argument is passed: [IndexError]. *)
Fixpoint render (kw : list (string * string)) (ps : list piece) : exn + string :=
  match ps with
  | [] => inr ""
  | Lit c :: ps' =>
      match render kw ps' with
      | inl e => inl e
      | inr s => inr (String c s)
      end
  | Field name :: ps' =>
      if string_forall is_digit name then inl IndexError
      else
        match lookup name kw with
        | inl e => inl e
        | inr v =>
            match render kw ps' with
            | inl e => inl e
            | inr s => inr (v ++ s)
            end
        end
  end.

(** [template.format( **kw )] *)
Definition format (template : string) (kw : list (string * string)) : exn + string :=
  match parse_format None template with
  | inl e => inl e
  | inr ps => render kw ps
  end.

(** ** The template tables *)

Definition COMMIT_MESSAGES : list (string * list string) :=
  [ ("morning",
      [ "Start day: review PR queue and plan tasks";
        "Daily standup notes and sprint planning";
        "Check overnight builds and CI status";
        "Morning sync: align on priorities";
        "Review emails and update task board" ]);
    ("development",
      [ "Implement feature: {component}";
        "Refactor {component} for better performance";
        "Add tests for {component}";
        "Update {component} documentation";
        "Fix edge case in {component}";
        "Optimize {component} query performance";
        "Integrate {component} with API";
        "Add validation to {component}" ]);
    ("bugfix",
      [ "Fix bug: {issue} causing {symptom}";
        "Hotfix: resolve {issue} in production";
        "Debug and fix {issue}";
        "Address code review feedback on {issue}";
        "Fix regression in {issue}" ]);
    ("review",
      [ "Code review: {pr}";
        "Review and approve PR: {pr}";
        "Leave feedback on {pr}";
        "Pair programming session on {feature}";
        "Mentoring session: review {feature}" ]);
    ("planning",
      [ "Update sprint backlog";
        "Write technical spec for {feature}";
        "Estimate tasks for next sprint";
        "Document {feature} architecture decision";
        "Update README with {feature} instructions" ]);
    ("endofday",
      [ "Wrap up: commit WIP on {feature}";
        "End of day: save progress on {feature}";
        "Checkpoint: {feature} progress";
        "Daily commit: {feature} updates";
        "Push EOD changes for {feature}" ]) ]%list.

Definition COMPONENTS : list string :=
  [ "user authentication"; "payment gateway"; "dashboard API"; "data pipeline";
    "notification service"; "user profile"; "search functionality";
    "reporting module"; "cache layer"; "database migrations"; "API endpoints";
    "frontend components"; "background jobs"; "webhook handlers";
    "error logging"; "metrics collection"; "config management";
    "security middleware"; "rate limiting"; "audit trail" ]%list.

Definition ISSUES : list string :=
  [ "memory leak"; "race condition"; "null pointer"; "authentication timeout";
    "database deadlock"; "race condition"; "validation error"; "indexing issue";
    "session handling"; "token refresh"; "data sync"; "cache invalidation" ]%list.

Definition SYMPTOMS : list string :=
  [ "slow response times"; "intermittent failures"; "login errors";
    "data inconsistency"; "timeout issues"; "crashes"; "incorrect totals";
    "missing notifications" ]%list.

Definition PRS : list string :=
  [ "#1423"; "#1425"; "#1428"; "#1430"; "#1432";
    "user-auth-refactor"; "payment-fix"; "dashboard-v2"; "api-cleanup" ]%list.

Definition FEATURES : list string :=
  [ "new onboarding flow"; "analytics dashboard"; "bulk export";
    "real-time updates"; "mobile optimization"; "accessibility improvements";
    "dark mode"; "SSO integration"; "audit logging"; "rate limiting";
    "caching layer"; "API v2" ]%list.

(** ** The commit synthesizer *)

(** The category of a commit made at [hour]. *)
Definition choose_category (hour : Z) : M string :=
  if hour <? 10 then ret "morning"
  else if hour <? 12 then Random.choice ["development"; "bugfix"; "review"]%list
  else if hour <? 14 then Random.choice ["planning"; "review"]%list
  else if hour <? 17 then Random.choice ["development"; "bugfix"; "review"]%list
  else ret "endofday".

(** The keyword arguments of the call to [format], drawn in this order. *)
Definition draw_fillers : M (list (string * string)) :=
  component <- Random.choice COMPONENTS ;;
  issue <- Random.choice ISSUES ;;
  symptom <- Random.choice SYMPTOMS ;;
  pr <- Random.choice PRS ;;
  feature <- Random.choice FEATURES ;;
  ret [ ("component", component); ("issue", issue); ("symptom", symptom);
        ("pr", pr); ("feature", feature) ]%list.

Definition generate_commit_message (hour : Z) : M string :=
  category <- choose_category hour ;;
  templates <- lift (lookup category COMMIT_MESSAGES) ;;
  template <- Random.choice templates ;;
  kw <- draw_fillers ;;
  lift (format template kw).

Definition is_workday (date : datetime) : bool := weekday date <? 5.

(** [range(a, b)] *)
Definition range (a b : Z) : list Z :=
  map (fun i => a + Z.of_nat i) (seq 0 (Z.to_nat (b - a))).

Fixpoint insert_sorted (x : Z) (l : list Z) : list Z :=
  match l with
  | [] => [x]
  | y :: l' => if x <=? y then x :: l else y :: insert_sorted x l'
  end%list.

(** [sorted(l)] on integers. *)
Definition sorted (l : list Z) : list Z := fold_right insert_sorted []%list l.

Record commit : Type := mkCommit {
  timestamp : string;
  iso_timestamp : string;
  message : string;
  content : string
}.

Definition work_hours : list Z := range 9 18.

(** [while len(selected_hours) < num_commits: selected_hours.append(...)],
    by the number of hours still missing. *)
Fixpoint fill_hours (missing : nat) (selected_hours : list Z) : M (list Z) :=
  match missing with
  | O => ret selected_hours
  | S missing' =>
      h <- Random.choice work_hours ;;
      fill_hours missing' (selected_hours ++ [h])%list
  end.

(** The dictionary appended for a commit at [commit_time]. *)
Definition commit_record (commit_time : datetime) (message : string) : commit :=
  let timestamp := strftime " " commit_time in
  let iso_timestamp := strftime "T" commit_time in
  let content_line := "[" ++ timestamp ++ "] " ++ message ++ newline in
  mkCommit timestamp iso_timestamp message content_line.

(** The body of the loop over the selected hours. *)
Definition commit_at (date : datetime) (hour : Z) : M commit :=
  minute <- Random.randint 0 59 ;;
  second <- Random.randint 0 59 ;;
  let commit_time := replace date hour minute second in
  message <- generate_commit_message hour ;;
  ret (commit_record commit_time message).

(** The hours of the day's commits.  [selected_hours[:num_commits]] is
    taken for [num_commits >= 0]: a negative count has raised in
    [random.sample] before. *)
Definition select_hours (num_commits : Z) : M (list Z) :=
  picked <- Random.sample work_hours (Z.min num_commits (len work_hours)) ;;
  let selected_hours := sorted picked in
  selected_hours <-
    fill_hours (Z.to_nat (num_commits - len selected_hours)) selected_hours ;;
  ret (sorted (firstn (Z.to_nat num_commits) selected_hours)).

Definition generate_commits_for_day (date : datetime) (num_commits : Z)
    (filename : string) : M (list commit) :=
  selected_hours <- select_hours num_commits ;;
  mapM (commit_at date) selected_hours.

(** ** The script emitter *)

Definition file_var : string := dquote ++ "$FILE" ++ dquote.

Definition echo_line (c : commit) : string :=
  "echo '" ++ rstrip (content c) ++ "' >> " ++ file_var.

Definition git_add_line : string := "git add " ++ file_var.

Definition git_commit_line (c : commit) : string :=
  "git commit -m '" ++ message c ++ "'".

Definition commit_block (c : commit) : list string :=
  [ "# Commit: " ++ message c;
    echo_line c;
    "export GIT_AUTHOR_DATE='" ++ iso_timestamp c ++ "'";
    "export GIT_COMMITTER_DATE='" ++ iso_timestamp c ++ "'";
    git_add_line;
    git_commit_line c;
    "" ].

Definition file_assignment (filename : string) : string :=
  "FILE=" ++ dquote ++ filename ++ dquote.

Definition touch_line : string := "touch " ++ file_var.

Definition script_lines (commits : list commit) (filename : string) : list string :=
  ([ "#!/bin/bash";
     "# Auto-generated commit script";
     "# Run this in your git repository";
     "";
     "set -e";
     "";
     file_assignment filename;
     "";
     "# Ensure file exists";
     touch_line;
     "" ]
   ++ flat_map commit_block commits
   ++ [ "echo 'All commits created successfully!'";
        "git log --oneline -10" ])%list.

(** ['\n'.join(script_lines)] *)
Definition generate_shell_script (commits : list commit) (filename : string)
    (output_path : string) : string :=
  String.concat newline (script_lines commits filename).

(** ** The entry point *)

(** The parsed command line.  [args_start_date] and [args_end_date] are
    [None] when the flag is absent. *)
Record args : Type := mkArgs {
  args_year : Z;
  args_start_date : option string;
  args_end_date : option string;
  args_months : Z;
  args_min_commits : Z;
  args_max_commits : Z;
  args_file : string;
  args_output : string;
  args_vacation_days : Z
}.

(** [if args.start_date:] holds for a string that is present and not
    empty. *)
Definition given (flag : option string) : option string :=
  match flag with
  | Some s => if is_empty s then None else Some s
  | None => None
  end.

(** [start_date] and the exclusive [end_date]. *)
Definition date_range (a : args) : exn + (datetime * datetime) :=
  match (match given (args_start_date a) with
         | Some s => strptime s
         | None => datetime_ymd (args_year a) 1 1
         end) with
  | inl e => inl e
  | inr start_date =>
      match (match given (args_end_date a) with
             | Some s =>
                 match strptime s with
                 | inl e => inl e
                 | inr d => add_days d 1
                 end
             | None => add_days start_date (30 * args_months a)
             end) with
      | inl e => inl e
      | inr end_date => inr (start_date, end_date)
      end
  end.

(** The loop [while current < end_date], with the days that are left as
    fuel. *)
Fixpoint workdays_loop (fuel : nat) (current end_date : datetime) : list datetime :=
  match fuel with
  | O => []
  | S fuel' =>
      if datetime_ltb current end_date then
        if is_workday current
        then current :: workdays_loop fuel' (next_day current) end_date
        else workdays_loop fuel' (next_day current) end_date
      else []
  end%list.

Definition collect_workdays (start_date end_date : datetime) : list datetime :=
  workdays_loop (Z.to_nat (ordinal end_date - ordinal start_date + 1))
    start_date end_date.

(** The double nearest to [0.08]. *)
Definition eight_percent : float := 0x1.47ae147ae147bp-4%float.

(** [float(n)] for a list length. *)
Definition float_of_len (n : Z) : float := PrimFloat.of_uint63 (Uint63.of_Z n).

(** The integer part of a float [0 <= f < 2^63].  [frshiftexp] gives the
    mantissa in [0.5, 1) and the exponent shifted by 2101, and
    [normfr_mantissa] the 53 bits of the mantissa: [f] is
    [mant * 2^(se - 2101 - 53)], so below exponent 1 the integer part is 0
    and up to exponent 53 it is [mant] without its low bits. *)
Definition trunc63 (f : float) : int :=
  let (m, se) := PrimFloat.frshiftexp f in
  let mant := PrimFloat.normfr_mantissa m in
  if (se <=? 2101)%uint63 then 0%uint63
  else if (se <=? 2154)%uint63 then (mant >> (2154 - se))%uint63
  else (mant << (se - 2154))%uint63.

(** [int(f)] for a finite float of magnitude below [2^63]: truncation
    towards zero. *)
Definition int_of_float (f : float) : Z :=
  if PrimFloat.ltb f 0%float then - Uint63.to_Z (trunc63 (PrimFloat.opp f))
  else Uint63.to_Z (trunc63 f).

(** [max(1, int(len(workdays) * 0.08))] *)
Definition default_vacation_days (nworkdays : Z) : Z :=
  Z.max 1 (int_of_float (PrimFloat.mul (float_of_len nworkdays) eight_percent)).

(** The vacation-day count after the test [if vacation_days < 0]. *)
Definition resolve_vacation_days (vacation_days : Z) (workdays : list datetime) : Z :=
  if vacation_days <? 0 then default_vacation_days (len workdays)
  else vacation_days.

(** [d not in vacation_day_list] *)
Definition not_in (l : list datetime) (d : datetime) : bool :=
  negb (existsb (datetime_eqb d) l).

(** The block under [if vacation_days > 0]: the count that was used and the
    workdays that are left. *)
Definition apply_vacation (workdays : list datetime) (vacation_days : Z)
  : M (Z * list datetime) :=
  if 0 <? vacation_days then
    let vacation_days := Z.min vacation_days (len workdays - 1) in
    vacation_day_list <- Random.sample workdays vacation_days ;;
    ret (vacation_days, filter (not_in vacation_day_list) workdays)
  else ret (vacation_days, workdays).

(** One turn of the loop over the workdays. *)
Definition commits_of_workday (a : args) (workday : datetime) : M (list commit) :=
  num_commits <- Random.randint (args_min_commits a) (args_max_commits a) ;;
  generate_commits_for_day workday num_commits (args_file a).

(** What a run computes: the values it reports and the script it writes. *)
Record run : Type := mkRun {
  start_date : datetime;
  end_date : datetime;
  workdays : list datetime;
  vacation_days : Z;
  all_commits : list commit;
  script_content : string
}.

Definition main (a : args) : M run :=
  '(start_date, end_date) <- lift (date_range a) ;;
  let workdays := collect_workdays start_date end_date in
  let vacation_days := resolve_vacation_days (args_vacation_days a) workdays in
  '(vacation_days, workdays) <- apply_vacation workdays vacation_days ;;
  day_commits <- mapM (commits_of_workday a) workdays ;;
  let all_commits := List.concat day_commits in
  let script_content :=
    generate_shell_script all_commits (args_file a) (args_output a) in
  ret (mkRun start_date end_date workdays vacation_days all_commits script_content).

(** ** The formula of the specification for the default vacation count *)

(** [round(num / den)] for [den > 0]: the nearest integer, a tie going to
    the even one. *)
Definition round_half_even (num den : Z) : Z :=
  let q := num / den in
  let r := num mod den in
  if 2 * r <? den then q
  else if den <? 2 * r then q + 1
  else if Z.even q then q else q + 1.

(** max(1, round(0.08 x workday count)), as the specification words it. *)
Definition spec_default_vacation_days (nworkdays : Z) : Z :=
  Z.max 1 (round_half_even (8 * nworkdays) 100).

(** ** Reading a script and a timestamp back *)

(** The lines that stage and commit, as a reader of the script knows them:
    [git add "$FILE"] and [git commit -m '...']. *)
Definition is_git_add (line : string) : bool :=
  String.eqb line ("git add " ++ dquote ++ "$FILE" ++ dquote).

Definition is_git_commit (line : string) : bool :=
  String.prefix "git commit -m '" line.



(** The two lines of a stage-and-commit pair: the file is staged, then
    committed with the record's message. *)
Definition stage_and_commit (c : commit) : list string :=
  [ "git add " ++ dquote ++ "$FILE" ++ dquote;
    "git commit -m '" ++ message c ++ "'" ].

(** Hour, minute and second of a timestamp: its last eight characters
    [HH:MM:SS], whatever the width of the year before them. *)
Definition time_of_timestamp (ts : string) : option (Z * Z * Z) :=
  match substring (String.length ts - 8) 8 ts with
  | String h1 (String h2 (String _ (String m1 (String m2
      (String _ (String s1 (String s2 ""))))))) =>
      match two_digits h1 h2, two_digits m1 m2, two_digits s1 s2 with
      | Some h, Some m, Some s => Some (h, m, s)
      | _, _, _ => None
      end
  | _ => None
  end.

(** The date a timestamp starts with: all of it but the separator and the
    eight characters of the time. *)
Definition date_of_timestamp (ts : string) : string :=
  substring 0 (String.length ts - 9) ts.

(** ** Runs used as examples *)

Definition tape_of (draws : list Z) : rng := mkRng (fun i => nth i draws 0) O.

Definition example_args : args :=
  mkArgs 2024 (Some "2024-01-01") (Some "2024-01-05") 12 2 2
    "work.log" "create_commits.sh" 0.

(** Midnight of a calendar date. *)
Definition midnight (y m d : Z) : datetime := mkDatetime (ymd2ord y m d) 0 0 0.

(** A weekend: no workday between Saturday 2024-01-06 and Sunday
    2024-01-07. *)
Definition weekend_args : args :=
  mkArgs 2024 (Some "2024-01-06") (Some "2024-01-07") 12 3 5
    "work.log" "create_commits.sh" (-1).

(** ** Checking the default vacation count on every list length *)

(** The product of the length [i] and [0.08] is not negative and its
    integer part is [8 * i / 100]. *)
Definition truncates_at (i : int) : bool :=
  let f := PrimFloat.mul (PrimFloat.of_uint63 i) eight_percent in
  negb (PrimFloat.ltb f 0%float) && (trunc63 f =? (8 * i) / 100)%uint63.

(** [truncates_at] on the [n] lengths from [i] on. *)
Fixpoint truncates_from (n : nat) (i : int) : bool :=
  match n with
  | O => true
  | S n' => if truncates_at i then truncates_from n' (i + 1)%uint63 else false
  end.

(** [truncates_from] on [m] blocks of [n] lengths. *)
Fixpoint truncates_blocks (m n : nat) (i : int) : bool :=
  match m with
  | O => true
  | S m' =>
      if truncates_from n i
      then truncates_blocks m' n (i + Uint63.of_Z (Z.of_nat n))%uint63
      else false
  end.

Definition block_size : nat := Eval vm_compute in Z.to_nat 2048.
Definition block_count : nat := Eval vm_compute in Z.to_nat 1784.


(** ** What the tables hold *)

Definition all_templates : list string := flat_map snd COMMIT_MESSAGES.

(** Each keyword of the call to [format] with the list its value is drawn
    from. *)
Definition FILLERS : list (string * list string) :=
  [ ("component", COMPONENTS); ("issue", ISSUES); ("symptom", SYMPTOMS);
    ("pr", PRS); ("feature", FEATURES) ]%list.

(** [kw] gives every keyword a value of its list. *)
Definition drawn_from_fillers (kw : list (string * string)) : Prop :=
  Forall2 (fun kv kl => fst kv = fst kl /\ In (snd kv) (snd kl)) kw FILLERS.

Definition not_brace (c : ascii) : bool :=
  negb (Ascii.eqb c "{" || Ascii.eqb c "}").

Definition not_apostrophe (c : ascii) : bool := negb (Ascii.eqb c apostrophe).

Definition not_newline (c : ascii) : bool := negb (Ascii.eqb c "010").

(** A field that names a keyword of the call. *)
Definition is_keyword (name : string) : bool :=
  existsb (String.eqb name) (map fst FILLERS)
  && negb (string_forall is_digit name).

Definition piece_fits (p : ascii -> bool) (pc : piece) : bool :=
  match pc with
  | Lit c => p c
  | Field name => is_keyword name
  end.

(** The template parses, its literal characters satisfy [p] and its fields
    are keywords. *)
Definition template_fits (p : ascii -> bool) (template : string) : bool :=
  match parse_format None template with
  | inr ps => forallb (piece_fits p) ps
  | inl _ => false
  end.

Definition tables_fit (p : ascii -> bool) : bool :=
  forallb (template_fits p) all_templates
  && forallb (fun kl => forallb (string_forall p) (snd kl)) FILLERS.


(** Neither a brace, nor an apostrophe, nor a line break. *)
Definition plain (c : ascii) : bool :=
  not_brace c && not_apostrophe c && not_newline c.

(** [c] is a record the loop body can append for [date] at [hour]. *)
Definition made_at (date : datetime) (hour : Z) (c : commit) : Prop :=
  exists minute second msg,
    c = commit_record (replace date hour minute second) msg
    /\ 0 <= minute <= 59
    /\ 0 <= second <= 59
    /\ string_forall plain msg = true.


(** [text.split("\n")]: the lines of a text. *)
Fixpoint split_lines (s : string) : list string :=
  match s with
  | "" => [""]
  | String c s' =>
      if Ascii.eqb c "010" then "" :: split_lines s'
      else
        match split_lines s' with
        | l :: ls => String c l :: ls
        | [] => [String c ""]
        end
  end%list.

(** No field that the script prints holds a line break. *)
Definition on_one_line (c : commit) : Prop :=
  string_forall not_newline (message c) = true
  /\ string_forall not_newline (rstrip (content c)) = true
  /\ string_forall not_newline (iso_timestamp c) = true.


(** The timestamp of [a] is before that of [b] as a string.  Timestamps of
    one day, and timestamps of years from 1000 on, have one width, so
    their order as strings is the order of the times they print. *)
Definition earlier (a b : commit) : Prop :=
  String.ltb (timestamp a) (timestamp b) = true.

(** The commits made on the day of [d]. *)
Definition commits_on (d : datetime) (commits : list commit) : list commit :=
  filter (fun c => String.eqb (date_of_timestamp (timestamp c)) (date_text d))
    commits.


(** Ten commits on 2024-01-01.  After the draw of the commit count, nine
    draws select all nine hours, the next adds 9 o'clock again, and the
    minutes drawn for the two commits of 9 o'clock are 50 and 10. *)
Definition same_hour_tape : rng :=
  tape_of [0; 0; 0; 0; 0; 0; 0; 0; 0; 0; 0; 50; 0; 0; 0; 0; 0; 0; 0; 10].

Definition same_hour_args : args :=
  mkArgs 2024 (Some "2024-01-01") (Some "2024-01-01") 12 10 10
    "work.log" "create_commits.sh" 0.


(** The hour printed in the timestamp of a record. *)
Definition hour_of_commit (c : commit) : option Z :=
  match time_of_timestamp (timestamp c) with
  | Some (h, _, _) => Some h
  | None => None
  end.

(** A week from Monday 2024-01-01 with three to five commits a day and no
    vacation. *)
Definition week_args : args :=
  mkArgs 2024 (Some "2024-01-01") (Some "2024-01-07") 12 3 5
    "work.log" "create_commits.sh" 0.





(** The last character of a string is there and is not white space. *)
Fixpoint last_solid (s : string) : bool :=
  match s with
  | "" => false
  | String c "" => negb (is_space c)
  | String _ s' => last_solid s'
  end.



(** No date flag, twelve months of thirty days from January 1. *)
Definition year_args (y : Z) : args :=
  mkArgs y None None 12 3 5 "work.log" "create_commits.sh" (-1).


(** The nineteen workdays from 2024-01-01 to 2024-01-25 with the default
    vacation count, and a single workday with it. *)
Definition january_args : args :=
  mkArgs 2024 (Some "2024-01-01") (Some "2024-01-25") 12 3 5
    "work.log" "create_commits.sh" (-1).

Definition one_day_args : args :=
  mkArgs 2024 (Some "2024-01-01") (Some "2024-01-01") 12 3 5
    "work.log" "create_commits.sh" (-1).


(** ** Templates as text with placeholders *)

(** A template read as the claim words it: stretches of text and named
    placeholders in braces. *)
Inductive segment : Type :=
| Text (s : string)
| Placeholder (name : string).

(** The template a list of segments spells. *)
Fixpoint template_text (segs : list segment) : string :=
  match segs with
  | [] => ""
  | Text s :: segs' => s ++ template_text segs'
  | Placeholder name :: segs' => "{" ++ name ++ "}" ++ template_text segs'
  end.

(** The same text with every placeholder replaced by the value its name has
    among the keyword arguments. *)
Fixpoint filled_text (kw : list (string * string)) (segs : list segment) : string :=
  match segs with
  | [] => ""
  | Text s :: segs' => s ++ filled_text kw segs'
  | Placeholder name :: segs' =>
      match lookup name kw with
      | inr v => v ++ filled_text kw segs'
      | inl _ => filled_text kw segs'
      end
  end.

(** A text without braces, or a placeholder whose value is an entry of the
    filler list of its name. *)
Definition segment_filled (kw : list (string * string)) (seg : segment) : Prop :=
  match seg with
  | Text s => string_forall not_brace s = true
  | Placeholder name =>
      exists v fillers,
        lookup name kw = inr v
        /\ In (name, fillers) FILLERS
        /\ In v fillers
  end.

Definition segments_of (ps : list piece) : list segment :=
  map (fun pc => match pc with
                 | Lit c => Text (String c "")
                 | Field name => Placeholder name
                 end) ps.

(** Every template of the tables is spelled by the segments it parses
    into. *)
Definition templates_spell_back : bool :=
  forallb (fun t => match parse_format None t with
                    | inr ps => String.eqb (template_text (segments_of ps)) t
                    | inl _ => false
                    end) all_templates.

(** ** Records with and without a line break *)



(** * Properties *)

(** ** The monad *)

Lemma bind_inr {A B} (m : M A) (f : A -> M B) g b g' :
  bind m f g = inr (b, g') ->
  exists a g1, m g = inr (a, g1) /\ f a g1 = inr (b, g').
Proof.
  unfold bind. destruct (m g) as [e | [a g1]]; [discriminate |].
  intros H. exists a, g1. split; [reflexivity | exact H].
Qed.

Lemma bind_step {A B} (m : M A) (f : A -> M B) g a g1 :
  m g = inr (a, g1) -> bind m f g = f a g1.
Proof. unfold bind. intros ->. reflexivity. Qed.

Lemma bind_inl {A B} (m : M A) (f : A -> M B) g e :
  m g = inl e -> bind m f g = inl e.
Proof. unfold bind. intros ->. reflexivity. Qed.

Lemma lift_inr {A} (r : exn + A) g a g' :
  lift r g = inr (a, g') -> r = inr a /\ g' = g.
Proof.
  destruct r as [e | a0]; simpl; [discriminate |].
  unfold ret. intros H. injection H as -> ->. split; reflexivity.
Qed.

(** Splits a successful monadic computation into its steps. *)
Ltac invert_bind H :=
  let a := fresh "a" in
  let g := fresh "g" in
  let Hm := fresh "Hm" in
  apply bind_inr in H; destruct H as (a & g & Hm & H).

Ltac invert_ret H :=
  unfold ret in H; injection H as <- <-.

Lemma mapM_Forall2 {A B} (f : A -> M B) (l : list A) g bs g' :
  mapM f l g = inr (bs, g') ->
  Forall2 (fun a b => exists g1 g2, f a g1 = inr (b, g2)) l bs.
Proof.
  revert g bs g'. induction l as [| a l IH]; simpl; intros g bs g' H.
  - invert_ret H. constructor.
  - invert_bind H. invert_bind H. invert_ret H.
    constructor; [exists g, g0; exact Hm | eapply IH; exact Hm0].
Qed.

Lemma mapM_total {A B} (f : A -> M B) (l : list A) :
  (forall a, In a l -> forall g, exists b g', f a g = inr (b, g')) ->
  forall g, exists bs g', mapM f l g = inr (bs, g').
Proof.
  induction l as [| a l IH]; simpl; intros Hf g.
  - exists []%list, g. reflexivity.
  - destruct (Hf a (or_introl eq_refl) g) as (b & g1 & Hb).
    destruct (IH (fun x Hx => Hf x (or_intror Hx)) g1) as (bs & g2 & Hbs).
    exists (b :: bs)%list, g2.
    rewrite (bind_step _ _ _ _ _ Hb), (bind_step _ _ _ _ _ Hbs). reflexivity.
Qed.

Lemma len_nonneg {A} (l : list A) : 0 <= len l.
Proof. unfold len. lia. Qed.

Lemma len_cons {A} (x : A) (l : list A) : len (x :: l) = len l + 1.
Proof. unfold len. simpl List.length. lia. Qed.

Lemma len_app {A} (l1 l2 : list A) : len (l1 ++ l2) = len l1 + len l2.
Proof. unfold len. rewrite length_app. lia. Qed.

(** ** The random source *)

Lemma randbelow_range n g j g' :
  0 < n -> Random.randbelow n g = inr (j, g') -> 0 <= j < n.
Proof.
  unfold Random.randbelow. intros Hn H. injection H as <- _.
  apply Z.mod_pos_bound. exact Hn.
Qed.

Lemma randbelow_total n g : exists j g', Random.randbelow n g = inr (j, g').
Proof. unfold Random.randbelow. eauto. Qed.

Lemma randint_range a b g j g' :
  Random.randint a b g = inr (j, g') -> a <= j <= b.
Proof.
  unfold Random.randint. destruct (Z.ltb_spec b a) as [Hlt | Hle]; [discriminate |].
  intros H. invert_bind H. invert_ret H.
  apply randbelow_range in Hm; lia.
Qed.

Lemma randint_total a b g :
  a <= b -> exists j g', Random.randint a b g = inr (j, g').
Proof.
  intros Hab. unfold Random.randint.
  destruct (Z.ltb_spec b a) as [Hlt | Hle]; [lia |].
  destruct (randbelow_total (b - a + 1) g) as (j & g' & Hj).
  exists (a + j), g'. rewrite (bind_step _ _ _ _ _ Hj). reflexivity.
Qed.

Lemma randint_empty a b g : b < a -> Random.randint a b g = inl ValueError.
Proof.
  intros Hlt. unfold Random.randint.
  destruct (Z.ltb_spec b a) as [_ | Hle]; [reflexivity | lia].
Qed.

Lemma choice_In {A} (l : list A) g x g' :
  Random.choice l g = inr (x, g') -> In x l.
Proof.
  destruct l as [| d l]; [discriminate |]. unfold Random.choice.
  intros H. invert_bind H. invert_ret H.
  apply randbelow_range in Hm; [| rewrite len_cons; pose proof (len_nonneg l); lia].
  refine (@nth_In _ (Z.to_nat a) (d :: l)%list d _). unfold len in Hm. lia.
Qed.

Lemma choice_total {A} (l : list A) g :
  l <> []%list -> exists x g', Random.choice l g = inr (x, g').
Proof.
  destruct l as [| d l]; [congruence |]. intros _. unfold Random.choice.
  destruct (randbelow_total (len (d :: l)) g) as (j & g' & Hj).
  eexists _, g'. rewrite (bind_step _ _ _ _ _ Hj). reflexivity.
Qed.

Lemma remove_nth_perm {A} (d : A) (pool : list A) (j : nat) :
  (j < List.length pool)%nat ->
  Permutation pool (nth j pool d :: Random.remove_nth j pool).
Proof.
  revert j. induction pool as [| x pool IH]; simpl; intros j Hj; [lia |].
  destruct j as [| j]; [reflexivity |].
  etransitivity; [apply perm_skip, (IH j); lia | apply perm_swap].
Qed.

Lemma remove_nth_length {A} (pool : list A) (j : nat) :
  (j < List.length pool)%nat ->
  List.length (Random.remove_nth j pool) = (List.length pool - 1)%nat.
Proof.
  revert j. induction pool as [| x pool IH]; simpl; intros j Hj; [lia |].
  destruct j as [| j]; simpl; [lia |].
  rewrite IH by lia. lia.
Qed.

(** The pool splits into what was selected and what was left. *)
Lemma sample_pool_spec {A} (k : nat) (pool : list A) g :
  (k <= List.length pool)%nat ->
  exists res g' rest,
    Random.sample_pool k pool g = inr (res, g')
    /\ List.length res = k
    /\ Permutation pool (res ++ rest).
Proof.
  revert pool g. induction k as [| k IH]; intros pool g Hk.
  - exists []%list, g, pool. simpl. auto.
  - destruct pool as [| d pool]; [simpl in Hk; lia |].
    cbn [Random.sample_pool].
    destruct (randbelow_total (len (d :: pool)) g) as (j & g1 & Hj).
    assert (Hr : 0 <= j < len (d :: pool)).
    { eapply randbelow_range; [| exact Hj].
      rewrite len_cons. pose proof (len_nonneg pool). lia. }
    assert (Hjn : (Z.to_nat j < List.length (d :: pool))%nat)
      by (unfold len in Hr; lia).
    destruct (IH (Random.remove_nth (Z.to_nat j) (d :: pool)) g1)
      as (res & g2 & rest & Hres & Hlen & Hperm).
    { rewrite remove_nth_length by exact Hjn. simpl in *. lia. }
    exists (nth (Z.to_nat j) (d :: pool) d :: res)%list, g2, rest. split; [| split].
    + rewrite (bind_step _ _ _ _ _ Hj), (bind_step _ _ _ _ _ Hres). reflexivity.
    + simpl. rewrite Hlen. reflexivity.
    + etransitivity; [apply (remove_nth_perm d), Hjn |].
      simpl. apply perm_skip. exact Hperm.
Qed.

Lemma sample_spec {A} (population : list A) (k : Z) g :
  0 <= k <= len population ->
  exists res g' rest,
    Random.sample population k g = inr (res, g')
    /\ len res = k
    /\ Permutation population (res ++ rest).
Proof.
  intros Hk. unfold Random.sample.
  destruct (Z.ltb_spec k 0); [lia |].
  destruct (Z.ltb_spec (len population) k); [lia |]. simpl.
  destruct (sample_pool_spec (Z.to_nat k) population g)
    as (res & g' & rest & Hres & Hlen & Hperm).
  { unfold len in Hk. lia. }
  exists res, g', rest. split; [exact Hres | split; [| exact Hperm]].
  unfold len. lia.
Qed.

Lemma sample_raises {A} (population : list A) (k : Z) g :
  k < 0 \/ len population < k ->
  Random.sample population k g = inl ValueError.
Proof.
  intros Hk. unfold Random.sample.
  destruct (Z.ltb_spec k 0); [reflexivity |].
  destruct (Z.ltb_spec (len population) k); [reflexivity | lia].
Qed.

(** ** Dates and the calendar filter *)

Lemma datetime_eqb_eq a b : datetime_eqb a b = true <-> a = b.
Proof.
  unfold datetime_eqb. split.
  - intros H. repeat (apply andb_prop in H; destruct H as [H ?]).
    destruct a, b; simpl in *. f_equal; apply Z.eqb_eq; assumption.
  - intros <-. rewrite !Z.eqb_refl. reflexivity.
Qed.

Lemma datetime_ltb_ordinal a b : datetime_ltb a b = true -> ordinal a <= ordinal b.
Proof.
  unfold datetime_ltb. intros H. apply orb_prop in H. destruct H as [H | H].
  - apply Z.ltb_lt in H. lia.
  - apply andb_prop in H. destruct H as [H _]. apply Z.eqb_eq in H. lia.
Qed.

Lemma datetime_ltb_after a b : ordinal b < ordinal a -> datetime_ltb a b = false.
Proof.
  intros H. destruct (datetime_ltb a b) eqn:E; [| reflexivity].
  apply datetime_ltb_ordinal in E. lia.
Qed.

(** The fuel of [collect_workdays] lets the loop run until its own test
    fails: more fuel changes nothing. *)
Lemma workdays_loop_fuel fuel current end_date :
  ordinal end_date - ordinal current + 1 <= Z.of_nat fuel ->
  workdays_loop (S fuel) current end_date = workdays_loop fuel current end_date.
Proof.
  revert current. induction fuel as [| fuel IH]; intros current Hf.
  - simpl. rewrite datetime_ltb_after by lia. reflexivity.
  - remember (S fuel) as n eqn:En. cbn [workdays_loop].
    rewrite En at 3. cbn [workdays_loop]. subst n.
    destruct (datetime_ltb current end_date); [| reflexivity].
    rewrite IH by (simpl; lia). reflexivity.
Qed.

Lemma workdays_loop_In fuel current end_date d :
  In d (workdays_loop fuel current end_date) ->
  is_workday d = true
  /\ ordinal current <= ordinal d
  /\ datetime_ltb d end_date = true
  /\ (hour d, minute d, second d) = (hour current, minute current, second current).
Proof.
  revert current. induction fuel as [| fuel IH]; intros current; simpl; [tauto |].
  destruct (datetime_ltb current end_date) eqn:Elt; [| simpl; tauto].
  assert (Hnext : In d (workdays_loop fuel (next_day current) end_date) ->
                  is_workday d = true /\ ordinal current <= ordinal d
                  /\ datetime_ltb d end_date = true
                  /\ (hour d, minute d, second d)
                     = (hour current, minute current, second current)).
  { intros H. apply IH in H. simpl in H. intuition lia. }
  destruct (is_workday current) eqn:Ew; [| exact Hnext].
  intros [<- | H]; [| exact (Hnext H)].
  repeat split; [exact Ew | lia | exact Elt].
Qed.

Lemma workdays_loop_sorted fuel current end_date :
  StronglySorted (fun a b => ordinal a < ordinal b)
    (workdays_loop fuel current end_date).
Proof.
  revert current. induction fuel as [| fuel IH]; intros current; simpl;
    [constructor |].
  destruct (datetime_ltb current end_date); [| constructor].
  destruct (is_workday current); [| apply IH].
  constructor; [apply IH |].
  apply Forall_forall. intros d Hd.
  apply workdays_loop_In in Hd. simpl in Hd. lia.
Qed.

Lemma sorted_ordinal_NoDup (l : list datetime) :
  StronglySorted (fun a b => ordinal a < ordinal b) l -> NoDup l.
Proof.
  induction 1 as [| a l Hs IH Hall]; constructor; [| exact IH].
  intros Hin. rewrite Forall_forall in Hall. specialize (Hall a Hin). lia.
Qed.

Lemma collect_workdays_NoDup start_date end_date :
  NoDup (collect_workdays start_date end_date).
Proof. apply sorted_ordinal_NoDup, workdays_loop_sorted. Qed.

Lemma weekday_range d : 0 <= weekday d <= 6.
Proof. unfold weekday. pose proof (Z.mod_pos_bound (ordinal d + 6) 7). lia. Qed.

(** ** Removing the vacation days *)

Lemma not_in_false l d : In d l -> not_in l d = false.
Proof.
  intros H. unfold not_in. apply negb_false_iff, existsb_exists.
  exists d. split; [exact H | apply datetime_eqb_eq; reflexivity].
Qed.

Lemma not_in_true l d : ~ In d l -> not_in l d = true.
Proof.
  intros H. unfold not_in. apply negb_true_iff.
  destruct (existsb (datetime_eqb d) l) eqn:E; [| reflexivity].
  apply existsb_exists in E. destruct E as (x & Hx & Heq).
  apply datetime_eqb_eq in Heq. subst x. contradiction.
Qed.

Lemma filter_length_perm {A} (p : A -> bool) (l l' : list A) :
  Permutation l l' -> List.length (filter p l) = List.length (filter p l').
Proof.
  induction 1 as [| x l l' _ IH | x y l | l l' l'' _ IH1 _ IH2]; simpl.
  - reflexivity.
  - destruct (p x); simpl; congruence.
  - destruct (p x), (p y); reflexivity.
  - congruence.
Qed.

(** Filtering out a selection leaves what was not selected. *)
Lemma filter_not_in_length (workdays selected rest : list datetime) :
  NoDup workdays ->
  Permutation workdays (selected ++ rest) ->
  List.length (filter (not_in selected) workdays) = List.length rest.
Proof.
  intros Hnd Hperm.
  rewrite (filter_length_perm _ _ _ Hperm), filter_app, length_app.
  assert (Hnd' : NoDup (selected ++ rest))
    by (eapply Permutation_NoDup; eassumption).
  assert (Hsel : filter (not_in selected) selected = []%list).
  { clear. generalize (fun d (H : In d selected) => not_in_false selected d H).
    generalize (not_in selected) as p.
    induction selected as [| x l IH]; intros p Hp; simpl; [reflexivity |].
    rewrite (Hp x (or_introl eq_refl)). apply IH.
    intros d Hd. apply Hp. right. exact Hd. }
  assert (Hrest : filter (not_in selected) rest = rest).
  { assert (Hdis : forall d, In d rest -> ~ In d selected).
    { intros d Hr Hs. clear -Hnd' Hr Hs.
      induction selected as [| x l IH]; simpl in *; [contradiction |].
      inversion Hnd' as [| ? ? Hx Hl]; subst.
      destruct Hs as [-> | Hs]; [| exact (IH Hl Hs)].
      apply Hx, in_or_app. right. exact Hr. }
    clear -Hdis. induction rest as [| x l IH]; simpl; [reflexivity |].
    rewrite not_in_true by (apply Hdis; left; reflexivity).
    f_equal. apply IH. intros d Hd. apply Hdis. right. exact Hd. }
  rewrite Hsel, Hrest. reflexivity.
Qed.

Lemma apply_vacation_spec (workdays : list datetime) (n : Z) g :
  NoDup workdays -> 1 <= len workdays -> 0 <= n ->
  exists used active g',
    apply_vacation workdays n g = inr ((used, active), g')
    /\ used = Z.min n (len workdays - 1)
    /\ len active = len workdays - used.
Proof.
  intros Hnd Hw Hn. unfold apply_vacation.
  destruct (Z.ltb_spec 0 n) as [Hpos | Hzero].
  - destruct (sample_spec workdays (Z.min n (len workdays - 1)) g)
      as (vl & g' & rest & Hs & Hlen & Hperm); [lia |].
    exists (Z.min n (len workdays - 1)), (filter (not_in vl) workdays), g'.
    split; [rewrite (bind_step _ _ _ _ _ Hs); reflexivity | split; [reflexivity |]].
    unfold len at 1. rewrite (filter_not_in_length _ _ _ Hnd Hperm).
    apply Permutation_length in Hperm. rewrite length_app in Hperm.
    unfold len in *. lia.
  - exists n, workdays, g. split; [reflexivity | split; lia].
Qed.

(** C6: for any start and end date, every date of the computed workday
    sequence has a weekday index from 0 to 4 (Monday to Friday), and none
    has index 5 or 6 (Saturday, Sunday). *)
Theorem workdays_are_monday_to_friday (start_date end_date : datetime) :
  Forall (fun d => 0 <= weekday d <= 4 /\ ~ (5 <= weekday d <= 6))
    (collect_workdays start_date end_date).
Proof.
  apply Forall_forall. intros d Hd.
  apply workdays_loop_In in Hd. destruct Hd as (Hw & _).
  unfold is_workday in Hw. apply Z.ltb_lt in Hw.
  pose proof (weekday_range d). lia.
Qed.

(** [k] days after [d], at the same time of day. *)
Lemma workdays_loop_complete (end_date : datetime) (k : nat) :
  forall (current : datetime) (fuel : nat),
    ordinal end_date - ordinal current + 1 <= Z.of_nat fuel ->
    datetime_ltb (Nat.iter k next_day current) end_date = true ->
    is_workday (Nat.iter k next_day current) = true ->
    In (Nat.iter k next_day current) (workdays_loop fuel current end_date).
Proof.
  induction k as [| k IH]; intros current fuel Hfuel Hlt Hw.
  - simpl in *. destruct fuel as [| fuel].
    + apply datetime_ltb_ordinal in Hlt. simpl in Hfuel. lia.
    + simpl. rewrite Hlt, Hw. left. reflexivity.
  - rewrite Nat.iter_succ_r in *.
    assert (Hord : forall j d, ordinal d <= ordinal (Nat.iter j next_day d)).
    { clear. induction j as [| j IHj]; intros d; simpl; [lia |].
      specialize (IHj d). lia. }
    pose proof (Hord k (next_day current)) as Hk.
    apply datetime_ltb_ordinal in Hlt as Hle. simpl in Hk.
    destruct fuel as [| fuel]; [simpl in Hfuel; lia |].
    assert (Hcur : datetime_ltb current end_date = true).
    { unfold datetime_ltb. apply orb_true_iff. left. apply Z.ltb_lt. lia. }
    simpl. rewrite Hcur.
    assert (Hin : In (Nat.iter k next_day (next_day current))
                    (workdays_loop fuel (next_day current) end_date)).
    { apply IH; [simpl; lia | exact Hlt | exact Hw]. }
    destruct (is_workday current); [right |]; exact Hin.
Qed.

(** The workday sequence leaves out no Monday-to-Friday date of the range:
    the date [k] days after the start is in it when it is before the end
    and a workday. *)
Lemma collect_workdays_complete (start_date end_date : datetime) (k : nat) :
  datetime_ltb (Nat.iter k next_day start_date) end_date = true ->
  is_workday (Nat.iter k next_day start_date) = true ->
  In (Nat.iter k next_day start_date) (collect_workdays start_date end_date).
Proof.
  intros Hlt Hw. unfold collect_workdays.
  apply workdays_loop_complete; [lia | exact Hlt | exact Hw].
Qed.

(** C4: for a raw workday sequence of [W >= 1] days and a vacation count
    [N >= 0], the vacation removal returns the active workdays, [W - N] of
    them when [N < W] and exactly one when [N >= W]. *)
Theorem active_workdays_after_vacation (start_date end_date : datetime)
    (n : Z) (g : rng) :
  1 <= len (collect_workdays start_date end_date) ->
  0 <= n ->
  exists used active g',
    apply_vacation (collect_workdays start_date end_date) n g
    = inr ((used, active), g')
    /\ len active
       = if n <? len (collect_workdays start_date end_date)
         then len (collect_workdays start_date end_date) - n
         else 1.
Proof.
  intros Hw Hn.
  destruct (apply_vacation_spec _ n g (collect_workdays_NoDup start_date end_date) Hw Hn)
    as (used & active & g' & Hrun & Hused & Hlen).
  exists used, active, g'. split; [exact Hrun |].
  rewrite Hlen, Hused.
  destruct (Z.ltb_spec n (len (collect_workdays start_date end_date))); lia.
Qed.

(** Three workdays, two of them on vacation: one is left. *)
Lemma active_workdays_after_vacation_witness :
  exists used active g',
    apply_vacation (collect_workdays (midnight 2024 1 1) (midnight 2024 1 4)) 2
      (tape_of [])
    = inr ((used, active), g')
    /\ len active
       = if 2 <? len (collect_workdays (midnight 2024 1 1) (midnight 2024 1 4))
         then len (collect_workdays (midnight 2024 1 1) (midnight 2024 1 4)) - 2
         else 1.
Proof.
  apply (active_workdays_after_vacation (midnight 2024 1 1) (midnight 2024 1 4)
           2 (tape_of [])).
  - vm_compute. discriminate.
  - lia.
Defined.

(** ** The default vacation count *)

(** [int] on some floats: the fraction is dropped, towards zero on both
    sides. *)
Lemma int_of_float_examples :
  int_of_float 0%float = 0
  /\ int_of_float eight_percent = 0
  /\ int_of_float 1.5%float = 1
  /\ int_of_float 1.99951171875%float = 1
  /\ int_of_float 2%float = 2
  /\ int_of_float 2057.125%float = 2057
  /\ int_of_float (-1.5)%float = -1
  /\ int_of_float 4503599627370497%float = 4503599627370497
  /\ int_of_float 18014398509481984%float = 18014398509481984.
Proof. vm_compute. repeat split. Qed.

Lemma of_Z_add (a b : Z) :
  Uint63.of_Z (a + b) = (Uint63.of_Z a + Uint63.of_Z b)%uint63.
Proof.
  apply Uint63.to_Z_inj. rewrite Uint63.add_spec, !Uint63.of_Z_spec.
  rewrite <- Zplus_mod. reflexivity.
Qed.

Lemma truncates_at_sound (w : Z) :
  0 <= w < 2 ^ 59 -> truncates_at (Uint63.of_Z w) = true ->
  int_of_float (PrimFloat.mul (float_of_len w) eight_percent) = 8 * w / 100.
Proof.
  intros Hw Ht. unfold truncates_at in Ht. cbv zeta in Ht.
  apply andb_prop in Ht. destruct Ht as [Hs He].
  apply negb_true_iff in Hs. unfold int_of_float, float_of_len. rewrite Hs.
  apply Uint63.eqb_correct in He. rewrite He.
  rewrite Uint63.div_spec, Uint63.mul_spec, Uint63.of_Z_spec.
  change (Uint63.to_Z 8) with 8. change (Uint63.to_Z 100) with 100.
  assert (Hwb : Uint63.wB = 2 ^ 63) by reflexivity.
  rewrite Hwb, (Z.mod_small w) by lia. rewrite Z.mod_small by lia.
  reflexivity.
Qed.

Lemma truncates_from_sound (n : nat) :
  forall w0, truncates_from n (Uint63.of_Z w0) = true ->
  forall w, w0 <= w < w0 + Z.of_nat n -> truncates_at (Uint63.of_Z w) = true.
Proof.
  induction n as [| n IH]; intros w0 Hc w Hw; [lia |].
  cbn [truncates_from] in Hc.
  destruct (truncates_at (Uint63.of_Z w0)) eqn:Ht; [| discriminate].
  destruct (Z.eq_dec w w0) as [-> | Hne]; [exact Ht |].
  apply (IH (w0 + 1)); [| lia]. rewrite of_Z_add. exact Hc.
Qed.

Lemma truncates_blocks_sound (m n : nat) :
  forall w0, truncates_blocks m n (Uint63.of_Z w0) = true ->
  forall w, w0 <= w < w0 + Z.of_nat m * Z.of_nat n ->
  truncates_at (Uint63.of_Z w) = true.
Proof.
  induction m as [| m IH]; intros w0 Hc w Hw; [lia |].
  cbn [truncates_blocks] in Hc.
  destruct (truncates_from n (Uint63.of_Z w0)) eqn:Hi; [| discriminate].
  destruct (Z.lt_ge_cases w (w0 + Z.of_nat n)) as [Hlt | Hge].
  - apply (truncates_from_sound n w0 Hi). lia.
  - apply (IH (w0 + Z.of_nat n)); [| lia]. rewrite of_Z_add. exact Hc.
Qed.

(** Every length a list of dates can have, checked one by one. *)
Lemma truncates_everywhere :
  truncates_blocks block_count block_size 0%uint63 = true.
Proof. vm_compute. reflexivity. Qed.

(** [int] truncates the product for every number of days that fit between
    0001-01-01 and 9999-12-31. *)
Lemma default_vacation_days_floor (w : Z) :
  0 <= w <= MAXORDINAL ->
  default_vacation_days w = Z.max 1 (8 * w / 100).
Proof.
  intros Hw. unfold MAXORDINAL in Hw. unfold default_vacation_days.
  rewrite truncates_at_sound; [reflexivity | lia |].
  apply (truncates_blocks_sound block_count block_size 0 truncates_everywhere).
  change (Z.of_nat block_count) with 1784.
  change (Z.of_nat block_size) with 2048. lia.
Qed.

(** ** No workday and the default vacation count *)

Lemma default_vacation_days_0 : default_vacation_days 0 = 1.
Proof. vm_compute. reflexivity. Qed.

(** C5: when the expanded range holds no workday and the vacation-day
    argument is negative, the run raises [ValueError] and returns no
    script: the default is max(1, 0) = 1, the clamp min(1, 0 - 1) = -1, and
    [random.sample] refuses the negative size. *)
Theorem no_workday_default_vacation_raises (a : args) (g : rng)
    (start_date end_date : datetime) :
  date_range a = inr (start_date, end_date) ->
  collect_workdays start_date end_date = []%list ->
  args_vacation_days a < 0 ->
  main a g = inl ValueError.
Proof.
  intros Hrange Hempty Hneg. unfold main.
  rewrite Hrange. unfold lift, ret, bind at 1. rewrite Hempty.
  unfold resolve_vacation_days.
  destruct (Z.ltb_spec (args_vacation_days a) 0) as [_ | Hge]; [| lia].
  change (len (@nil datetime)) with 0. rewrite default_vacation_days_0.
  apply bind_inl. unfold apply_vacation.
  change (0 <? 1) with true. cbv iota.
  apply bind_inl. apply sample_raises. left. reflexivity.
Qed.

Lemma no_workday_default_vacation_raises_witness :
  main weekend_args (tape_of []) = inl ValueError.
Proof.
  apply (no_workday_default_vacation_raises weekend_args (tape_of [])
           (midnight 2024 1 6) (midnight 2024 1 8)).
  - reflexivity.
  - reflexivity.
  - simpl. lia.
Defined.

(** ** Messages *)

Lemma string_forall_app p (s1 s2 : string) :
  string_forall p (s1 ++ s2) = string_forall p s1 && string_forall p s2.
Proof.
  induction s1 as [| c s1 IH]; simpl; [reflexivity |].
  rewrite IH, andb_assoc. reflexivity.
Qed.

Lemma lookup_In {A} (key : string) (tbl : list (string * A)) v :
  lookup key tbl = inr v -> In (key, v) tbl.
Proof.
  induction tbl as [| [k x] tbl IH]; simpl; [discriminate |].
  destruct (String.eqb_spec key k) as [-> | _].
  - intros H. injection H as ->. left. reflexivity.
  - intros H. right. exact (IH H).
Qed.

Lemma choose_category_spec (hour : Z) g :
  exists category g',
    choose_category hour g = inr (category, g')
    /\ In category (map fst COMMIT_MESSAGES).
Proof.
  unfold choose_category.
  repeat match goal with
         | |- context [if ?b then _ else _] => destruct b
         end;
    try (eexists _, g; split; [reflexivity | simpl; tauto]);
    match goal with
    | |- context [Random.choice ?l g] =>
        destruct (choice_total l g) as (c & g' & Hc); [discriminate |];
        exists c, g'; split; [exact Hc |];
        apply choice_In in Hc; simpl in *; tauto
    end.
Qed.

Lemma templates_of_category (category : string) :
  In category (map fst COMMIT_MESSAGES) ->
  exists templates,
    lookup category COMMIT_MESSAGES = inr templates
    /\ templates <> []%list
    /\ incl templates all_templates.
Proof.
  intros Hin.
  assert (Hex : exists templates,
             lookup category COMMIT_MESSAGES = inr templates
             /\ templates <> []%list).
  { simpl in Hin.
    repeat (destruct Hin as [<- | Hin];
            [eexists; split; [reflexivity | discriminate] |]).
    contradiction. }
  destruct Hex as (templates & Hl & Hne).
  exists templates. split; [exact Hl | split; [exact Hne |]].
  intros t Ht. unfold all_templates. apply in_flat_map.
  exists (category, templates). split; [apply lookup_In, Hl | exact Ht].
Qed.

Lemma draw_fillers_spec g :
  exists kw g', draw_fillers g = inr (kw, g') /\ drawn_from_fillers kw.
Proof.
  unfold draw_fillers.
  destruct (choice_total COMPONENTS g) as (c & g1 & H1); [discriminate |].
  destruct (choice_total ISSUES g1) as (i & g2 & H2); [discriminate |].
  destruct (choice_total SYMPTOMS g2) as (s & g3 & H3); [discriminate |].
  destruct (choice_total PRS g3) as (p & g4 & H4); [discriminate |].
  destruct (choice_total FEATURES g4) as (f & g5 & H5); [discriminate |].
  eexists _, g5. split.
  - rewrite (bind_step _ _ _ _ _ H1), (bind_step _ _ _ _ _ H2),
      (bind_step _ _ _ _ _ H3), (bind_step _ _ _ _ _ H4),
      (bind_step _ _ _ _ _ H5). reflexivity.
  - apply choice_In in H1, H2, H3, H4, H5.
    unfold drawn_from_fillers, FILLERS.
    repeat (constructor; [split; [reflexivity | assumption] |]). constructor.
Qed.

(** A keyword is looked up to a value of its filler list. *)
Lemma lookup_keyword (kw : list (string * string)) (name : string) :
  drawn_from_fillers kw -> is_keyword name = true ->
  exists v fillers,
    lookup name kw = inr v /\ In (name, fillers) FILLERS /\ In v fillers.
Proof.
  unfold drawn_from_fillers, is_keyword. intros Hkw Hname.
  apply andb_prop in Hname. destruct Hname as [Hname _].
  apply existsb_exists in Hname. destruct Hname as (k & Hk & Heq).
  apply String.eqb_eq in Heq. subst k.
  induction Hkw as [| [k v] [k' l] kw tbl [Hfst Hsnd] _ IH]; simpl in *;
    [contradiction |].
  subst k'. destruct (String.eqb_spec name k) as [-> | Hne].
  - exists v, l. auto.
  - destruct Hk as [Hk | Hk]; [congruence |].
    destruct (IH Hk) as (v' & l' & Hl & Hin & Hv).
    exists v', l'. auto.
Qed.

Lemma render_spec (p : ascii -> bool) (kw : list (string * string))
    (ps : list piece) :
  drawn_from_fillers kw ->
  forallb (fun kl => forallb (string_forall p) (snd kl)) FILLERS = true ->
  forallb (piece_fits p) ps = true ->
  exists s, render kw ps = inr s /\ string_forall p s = true.
Proof.
  intros Hkw Hfill. induction ps as [| pc ps IH]; intros Hps.
  - exists "". split; reflexivity.
  - cbn [forallb] in Hps. apply andb_prop in Hps. destruct Hps as [Hpc Hps].
    destruct (IH Hps) as (s & Hs & Hp).
    destruct pc as [c | name]; cbn [render piece_fits] in *.
    + exists (String c s). rewrite Hs. split; [reflexivity |].
      simpl. rewrite Hpc, Hp. reflexivity.
    + destruct (lookup_keyword kw name Hkw Hpc) as (v & l & Hl & Hin & Hv).
      unfold is_keyword in Hpc. apply andb_prop in Hpc. destruct Hpc as [_ Hnd].
      apply negb_true_iff in Hnd. rewrite Hnd, Hl, Hs.
      exists (v ++ s). split; [reflexivity |].
      rewrite string_forall_app, Hp, andb_true_r.
      rewrite forallb_forall in Hfill. specialize (Hfill _ Hin).
      rewrite forallb_forall in Hfill. exact (Hfill _ Hv).
Qed.

(** Every message is a template of the tables rendered with fillers of the
    lists; a property of characters that the tables have, the message
    has. *)
Lemma generate_commit_message_spec (p : ascii -> bool) (hour : Z) g :
  tables_fit p = true ->
  exists msg g' template ps kw,
    generate_commit_message hour g = inr (msg, g')
    /\ In template all_templates
    /\ parse_format None template = inr ps
    /\ forallb (piece_fits p) ps = true
    /\ drawn_from_fillers kw
    /\ render kw ps = inr msg
    /\ string_forall p msg = true.
Proof.
  intros Hfit. unfold tables_fit in Hfit. apply andb_prop in Hfit.
  destruct Hfit as [Htpl Hfill].
  unfold generate_commit_message.
  destruct (choose_category_spec hour g) as (category & g1 & Hcat & Hin).
  destruct (templates_of_category category Hin) as (templates & Hl & Hne & Hincl).
  destruct (choice_total templates g1 Hne) as (template & g2 & Hch).
  destruct (draw_fillers_spec g2) as (kw & g3 & Hdraw & Hkw).
  assert (Hall : In template all_templates) by (apply Hincl, (choice_In _ _ _ _ Hch)).
  rewrite forallb_forall in Htpl. specialize (Htpl _ Hall).
  unfold template_fits in Htpl.
  destruct (parse_format None template) as [e | ps] eqn:Hparse; [discriminate |].
  destruct (render_spec p kw ps Hkw Hfill Htpl) as (msg & Hr & Hp).
  exists msg, g3, template, ps, kw.
  split; [| repeat split; assumption].
  rewrite (bind_step _ _ _ _ _ Hcat). rewrite Hl. unfold lift at 1.
  unfold ret at 1, bind at 1.
  rewrite (bind_step _ _ _ _ _ Hch), (bind_step _ _ _ _ _ Hdraw).
  unfold format. rewrite Hparse, Hr. reflexivity.
Qed.

Lemma tables_fit_not_brace : tables_fit not_brace = true.
Proof. vm_compute. reflexivity. Qed.

Lemma tables_fit_not_apostrophe : tables_fit not_apostrophe = true.
Proof. vm_compute. reflexivity. Qed.

Lemma tables_fit_not_newline : tables_fit not_newline = true.
Proof. vm_compute. reflexivity. Qed.

Lemma render_filled (kw : list (string * string)) (ps : list piece) (s : string) :
  render kw ps = inr s -> s = filled_text kw (segments_of ps).
Proof.
  revert s. induction ps as [| pc ps IH]; intros s Hr.
  - simpl in Hr. injection Hr as <-. reflexivity.
  - destruct pc as [c | name]; cbn [render] in Hr.
    + destruct (render kw ps) as [e | s'] eqn:Hs'; [discriminate |].
      injection Hr as <-. cbn [segments_of map filled_text append].
      f_equal. exact (IH s' eq_refl).
    + destruct (string_forall is_digit name); [discriminate |].
      cbn [segments_of map filled_text].
      destruct (lookup name kw) as [e | v]; [discriminate |].
      destruct (render kw ps) as [e | s'] eqn:Hs'; [discriminate |].
      injection Hr as <-. f_equal. exact (IH s' eq_refl).
Qed.

Lemma templates_spell_back_ok : templates_spell_back = true.
Proof. vm_compute. reflexivity. Qed.

Lemma segments_filled (kw : list (string * string)) (ps : list piece) :
  drawn_from_fillers kw ->
  forallb (piece_fits not_brace) ps = true ->
  Forall (segment_filled kw) (segments_of ps).
Proof.
  intros Hkw. induction ps as [| pc ps IH]; intros Hfit; [constructor |].
  cbn [forallb] in Hfit. apply andb_prop in Hfit. destruct Hfit as [Hpc Hfit].
  cbn [segments_of map]. constructor; [| exact (IH Hfit)].
  destruct pc as [c | name]; cbn [segment_filled piece_fits] in *.
  - cbn [string_forall]. rewrite Hpc. reflexivity.
  - exact (lookup_keyword kw name Hkw Hpc).
Qed.

(** The steps of [generate_commit_message], each with its result. *)
Lemma generate_commit_message_steps (p : ascii -> bool) (hour : Z) g :
  tables_fit p = true ->
  exists category g1 templates template g2 kw g3 ps msg,
    choose_category hour g = inr (category, g1)
    /\ lookup category COMMIT_MESSAGES = inr templates
    /\ Random.choice templates g1 = inr (template, g2)
    /\ draw_fillers g2 = inr (kw, g3)
    /\ generate_commit_message hour g = inr (msg, g3)
    /\ In template all_templates
    /\ parse_format None template = inr ps
    /\ forallb (piece_fits p) ps = true
    /\ drawn_from_fillers kw
    /\ render kw ps = inr msg
    /\ string_forall p msg = true.
Proof.
  intros Hfit. unfold tables_fit in Hfit. apply andb_prop in Hfit.
  destruct Hfit as [Htpl Hfill].
  destruct (choose_category_spec hour g) as (category & g1 & Hcat & Hin).
  destruct (templates_of_category category Hin) as (templates & Hl & Hne & Hincl).
  destruct (choice_total templates g1 Hne) as (template & g2 & Hch).
  destruct (draw_fillers_spec g2) as (kw & g3 & Hdraw & Hkw).
  assert (Hall : In template all_templates) by (apply Hincl, (choice_In _ _ _ _ Hch)).
  rewrite forallb_forall in Htpl. specialize (Htpl _ Hall).
  unfold template_fits in Htpl.
  destruct (parse_format None template) as [e | ps] eqn:Hparse; [discriminate |].
  destruct (render_spec p kw ps Hkw Hfill Htpl) as (msg & Hr & Hp).
  exists category, g1, templates, template, g2, kw, g3, ps, msg.
  repeat split; try assumption.
  unfold generate_commit_message.
  rewrite (bind_step _ _ _ _ _ Hcat). rewrite Hl. unfold lift at 1.
  unfold ret at 1, bind at 1.
  rewrite (bind_step _ _ _ _ _ Hch), (bind_step _ _ _ _ _ Hdraw).
  unfold format. rewrite Hparse, Hr. reflexivity.
Qed.

(** C8: a generated commit message is the template that [random.choice]
    picked from the table of the hour's category, with every placeholder
    of that template replaced by the value drawn for its name, an entry of
    the name's filler list; the texts between the placeholders are kept,
    and no brace is left in the message. *)
Theorem placeholders_are_filled (hour : Z) (g : rng) :
  exists category g1 templates template g2 kw g3 msg segs,
    choose_category hour g = inr (category, g1)
    /\ lookup category COMMIT_MESSAGES = inr templates
    /\ Random.choice templates g1 = inr (template, g2)
    /\ draw_fillers g2 = inr (kw, g3)
    /\ generate_commit_message hour g = inr (msg, g3)
    /\ template = template_text segs
    /\ msg = filled_text kw segs
    /\ Forall (segment_filled kw) segs
    /\ string_forall not_brace msg = true.
Proof.
  destruct (generate_commit_message_steps not_brace hour g tables_fit_not_brace)
    as (category & g1 & templates & template & g2 & kw & g3 & ps & msg
        & Hcat & Hl & Hch & Hdraw & Hrun & Hin & Hparse & Hfit & Hkw & Hr & Hp).
  exists category, g1, templates, template, g2, kw, g3, msg, (segments_of ps).
  repeat split; try assumption.
  - pose proof templates_spell_back_ok as Hb. unfold templates_spell_back in Hb.
    rewrite forallb_forall in Hb. specialize (Hb _ Hin).
    rewrite Hparse in Hb. apply String.eqb_eq in Hb. symmetry. exact Hb.
  - exact (render_filled kw ps msg Hr).
  - exact (segments_filled kw ps Hkw Hfit).
Qed.

(** ** Sorting the hours *)

Lemma insert_sorted_perm (x : Z) (l : list Z) :
  Permutation (insert_sorted x l) (x :: l).
Proof.
  induction l as [| y l IH]; simpl; [reflexivity |].
  destruct (x <=? y); [reflexivity |].
  etransitivity; [apply perm_skip, IH | apply perm_swap].
Qed.

Lemma sorted_perm (l : list Z) : Permutation (sorted l) l.
Proof.
  induction l as [| x l IH]; simpl; [reflexivity |].
  etransitivity; [apply insert_sorted_perm | apply perm_skip, IH].
Qed.

Lemma insert_sorted_sorted (x : Z) (l : list Z) :
  StronglySorted Z.le l -> StronglySorted Z.le (insert_sorted x l).
Proof.
  induction 1 as [| y l Hs IH Hall]; simpl; [repeat constructor |].
  destruct (Z.leb_spec x y) as [Hle | Hgt].
  - constructor; [constructor; assumption |].
    constructor; [exact Hle |].
    eapply Forall_impl; [| exact Hall]. simpl. intros z Hz. lia.
  - constructor; [exact IH |].
    eapply Permutation_Forall; [symmetry; apply insert_sorted_perm |].
    constructor; [lia | exact Hall].
Qed.

Lemma sorted_sorted (l : list Z) : StronglySorted Z.le (sorted l).
Proof.
  induction l as [| x l IH]; simpl; [constructor |].
  apply insert_sorted_sorted, IH.
Qed.

Lemma sorted_NoDup_strict (l : list Z) :
  StronglySorted Z.le l -> NoDup l -> StronglySorted Z.lt l.
Proof.
  induction 1 as [| x l Hs IH Hall]; intros Hnd; [constructor |].
  inversion Hnd as [| ? ? Hx Hl]; subst.
  constructor; [exact (IH Hl) |].
  rewrite Forall_forall in *. intros y Hy.
  specialize (Hall y Hy). assert (x <> y) by (intros ->; contradiction). lia.
Qed.

Lemma len_sorted (l : list Z) : len (sorted l) = len l.
Proof. unfold len. rewrite (Permutation_length (sorted_perm l)). reflexivity. Qed.

(** ** The hours of a day *)

Lemma work_hours_range (h : Z) : In h work_hours <-> 9 <= h < 18.
Proof.
  split.
  - intros H. vm_compute in H. intuition lia.
  - intros H.
    assert (Hc : h = 9 \/ h = 10 \/ h = 11 \/ h = 12 \/ h = 13 \/ h = 14
                 \/ h = 15 \/ h = 16 \/ h = 17) by lia.
    vm_compute. intuition auto.
Qed.

Lemma work_hours_NoDup : NoDup work_hours.
Proof.
  change work_hours with [9; 10; 11; 12; 13; 14; 15; 16; 17]%list.
  repeat (constructor; [simpl; intuition lia |]). constructor.
Qed.

Lemma fill_hours_spec (missing : nat) :
  forall selected g,
  exists extra g',
    fill_hours missing selected g = inr ((selected ++ extra)%list, g')
    /\ List.length extra = missing
    /\ Forall (fun h => In h work_hours) extra.
Proof.
  induction missing as [| missing IH]; intros selected g.
  - exists []%list, g. rewrite app_nil_r. simpl. auto.
  - cbn [fill_hours].
    destruct (choice_total work_hours g) as (h & g1 & Hh); [discriminate |].
    destruct (IH (selected ++ [h])%list g1) as (extra & g2 & Hrun & Hlen & Hall).
    exists (h :: extra)%list, g2. split; [| split].
    + rewrite (bind_step _ _ _ _ _ Hh), Hrun, <- app_assoc. reflexivity.
    + simpl. rewrite Hlen. reflexivity.
    + constructor; [exact (choice_In _ _ _ _ Hh) | exact Hall].
Qed.

(** The selected hours: as many as requested, all working hours, in
    non-decreasing order, and distinct when no more than nine are asked
    for. *)
Lemma select_hours_spec (n : Z) g :
  0 <= n ->
  exists hs g',
    select_hours n g = inr (hs, g')
    /\ len hs = n
    /\ Forall (fun h => 9 <= h < 18) hs
    /\ StronglySorted Z.le hs
    /\ (n <= 9 -> StronglySorted Z.lt hs).
Proof.
  intros Hn. unfold select_hours.
  assert (Hlen9 : len work_hours = 9) by reflexivity.
  destruct (sample_spec work_hours (Z.min n (len work_hours)) g)
    as (picked & g1 & rest & Hs & Hlen & Hperm); [lia |].
  destruct (fill_hours_spec (Z.to_nat (n - len (sorted picked))) (sorted picked) g1)
    as (extra & g2 & Hfill & Hextra & Hin).
  rewrite len_sorted, Hlen in Hextra.
  set (hs := (sorted picked ++ extra)%list) in *.
  assert (Hhs : len hs = n).
  { unfold hs. rewrite len_app, len_sorted, Hlen. unfold len at 2.
    rewrite Hextra, Hlen9. lia. }
  assert (Hfirst : firstn (Z.to_nat n) hs = hs).
  { apply firstn_all2. unfold len in Hhs. lia. }
  assert (Hall : Forall (fun h => In h work_hours) hs).
  { unfold hs. apply Forall_app. split; [| exact Hin].
    eapply Permutation_Forall; [symmetry; apply sorted_perm |].
    apply Forall_forall. intros h Hh.
    eapply Permutation_in; [symmetry; exact Hperm |].
    apply in_or_app. left. exact Hh. }
  exists (sorted hs), g2. split; [| split; [| split; [| split]]].
  - rewrite (bind_step _ _ _ _ _ Hs). cbv zeta.
    rewrite (bind_step _ _ _ _ _ Hfill), Hfirst. reflexivity.
  - rewrite len_sorted. exact Hhs.
  - eapply Permutation_Forall; [symmetry; apply sorted_perm |].
    eapply Forall_impl; [| exact Hall]. intros h. apply work_hours_range.
  - apply sorted_sorted.
  - intros H9. apply sorted_NoDup_strict; [apply sorted_sorted |].
    eapply Permutation_NoDup; [symmetry; apply sorted_perm |].
    assert (Hnil : extra = []%list).
    { destruct extra; [reflexivity |]. rewrite Hlen9 in Hextra.
      simpl in Hextra. lia. }
    unfold hs. rewrite Hnil, app_nil_r.
    eapply Permutation_NoDup; [symmetry; apply sorted_perm |].
    assert (Hnd : NoDup (picked ++ rest))
      by (eapply Permutation_NoDup; [exact Hperm | apply work_hours_NoDup]).
    apply NoDup_app_remove_r in Hnd. exact Hnd.
Qed.

(** ** Characters of timestamps and messages *)

Lemma tables_fit_plain : tables_fit plain = true.
Proof. vm_compute. reflexivity. Qed.

Lemma string_forall_impl (p q : ascii -> bool) (s : string) :
  (forall c, p c = true -> q c = true) ->
  string_forall p s = true -> string_forall q s = true.
Proof.
  intros Hpq. induction s as [| c s IH]; simpl; [reflexivity |].
  intros H. apply andb_prop in H. destruct H as [Hc Hs].
  rewrite (Hpq c Hc), (IH Hs). reflexivity.
Qed.

Lemma plain_not_apostrophe c : plain c = true -> not_apostrophe c = true.
Proof.
  unfold plain. intros H. apply andb_prop in H. destruct H as [H _].
  apply andb_prop in H. tauto.
Qed.

Lemma plain_not_newline c : plain c = true -> not_newline c = true.
Proof. unfold plain. intros H. apply andb_prop in H. tauto. Qed.

Lemma digit_char_forall (p : ascii -> bool) :
  forallb p DIGITS = true -> forall k, p (digit_char k) = true.
Proof.
  intros Hp k. rewrite forallb_forall in Hp. apply Hp. unfold digit_char.
  destruct (nth_in_or_default (Z.to_nat k) DIGITS "9"%char) as [Hin | ->].
  - exact Hin.
  - simpl. tauto.
Qed.

Lemma digit_val_char (k : Z) : 0 <= k <= 9 -> digit_val (digit_char k) = Some k.
Proof.
  intros Hk.
  assert (Hc : k = 0 \/ k = 1 \/ k = 2 \/ k = 3 \/ k = 4 \/ k = 5 \/ k = 6
               \/ k = 7 \/ k = 8 \/ k = 9) by lia.
  repeat (destruct Hc as [-> | Hc]; [reflexivity |]). subst k. reflexivity.
Qed.

Lemma two_digits_pad (n : Z) :
  0 <= n < 100 ->
  two_digits (digit_char (n / 10 mod 10)) (digit_char (n mod 10)) = Some n.
Proof.
  intros Hn. unfold two_digits.
  pose proof (Z.mod_pos_bound n 10 eq_refl).
  assert (Hd : 0 <= n / 10 < 10)
    by (split; [apply Z.div_pos; lia | apply Z.div_lt_upper_bound; lia]).
  rewrite (Z.mod_small (n / 10) 10) by lia.
  rewrite !digit_val_char by lia.
  f_equal. pose proof (Z.div_mod n 10). lia.
Qed.

Lemma string_length_app (a b : string) :
  String.length (a ++ b) = (String.length a + String.length b)%nat.
Proof. induction a as [| c a IH]; simpl; [| rewrite IH]; reflexivity. Qed.

Lemma substring_skip (a b : string) (n m : nat) :
  substring (String.length a + n) m (a ++ b) = substring n m b.
Proof. induction a as [| c a IH]; simpl; [reflexivity | exact IH]. Qed.

Lemma substring_prefix (a b : string) :
  substring 0 (String.length a) (a ++ b) = a.
Proof.
  induction a as [| c a IH]; simpl.
  - destruct b; reflexivity.
  - rewrite IH. reflexivity.
Qed.

Lemma time_text_length (sep : ascii) (t : datetime) :
  String.length (String sep "" ++ time_text t) = 9%nat.
Proof. reflexivity. Qed.

(** The time of day can be read back from a printed timestamp. *)
Lemma time_of_timestamp_strftime (sep : ascii) (t : datetime) :
  0 <= hour t < 100 -> 0 <= minute t < 100 -> 0 <= second t < 100 ->
  time_of_timestamp (strftime (String sep "") t)
  = Some (hour t, minute t, second t).
Proof.
  intros Hh Hm Hs. unfold strftime, time_of_timestamp.
  rewrite string_length_app, time_text_length.
  replace (String.length (date_text t) + 9 - 8)%nat
    with (String.length (date_text t) + 1)%nat by lia.
  rewrite substring_skip. unfold time_text, pad2. cbn [append substring].
  rewrite !two_digits_pad by assumption. reflexivity.
Qed.

(** The date can be read back from a printed timestamp. *)
Lemma date_of_timestamp_strftime (sep : ascii) (t : datetime) :
  date_of_timestamp (strftime (String sep "") t) = date_text t.
Proof.
  unfold strftime, date_of_timestamp.
  rewrite string_length_app, time_text_length.
  replace (String.length (date_text t) + 9 - 9)%nat
    with (String.length (date_text t)) by lia.
  apply substring_prefix.
Qed.

Lemma year_text_forall (p : ascii -> bool) (y : Z) :
  forallb p DIGITS = true -> string_forall p (year_text y) = true.
Proof.
  intros Hd. unfold year_text, pad4, pad2.
  destruct (y <? 10); [| destruct (y <? 100); [| destruct (y <? 1000)]];
    cbn [string_forall]; rewrite !(digit_char_forall p Hd); reflexivity.
Qed.

Lemma strftime_forall (p : ascii -> bool) (sep : string) (t : datetime) :
  forallb p DIGITS = true -> p "-"%char = true -> p ":"%char = true ->
  string_forall p sep = true ->
  string_forall p (strftime sep t) = true.
Proof.
  intros Hd Hdash Hcolon Hsep. unfold strftime, date_text, time_text.
  destruct (ord2ymd (ordinal t)) as [[y m] d].
  rewrite !string_forall_app, (year_text_forall p y Hd), Hsep.
  unfold pad2. cbn [append string_forall].
  rewrite !(digit_char_forall p Hd), Hdash, Hcolon. reflexivity.
Qed.

Lemma count_char_app (c : ascii) (s1 s2 : string) :
  count_char c (s1 ++ s2) = (count_char c s1 + count_char c s2)%nat.
Proof.
  induction s1 as [| x s1 IH]; simpl; [reflexivity |]. rewrite IH. lia.
Qed.

Lemma count_char_apostrophe_0 (s : string) :
  string_forall not_apostrophe s = true -> count_char apostrophe s = O.
Proof.
  induction s as [| c s IH]; cbn [count_char string_forall]; [reflexivity |].
  intros H. apply andb_prop in H. destruct H as [Hc Hs].
  unfold not_apostrophe in Hc. apply negb_true_iff in Hc.
  rewrite Ascii.eqb_sym, Hc, (IH Hs). reflexivity.
Qed.

Lemma rstrip_forall (p : ascii -> bool) (s : string) :
  string_forall p s = true -> string_forall p (rstrip s) = true.
Proof.
  induction s as [| c s IH]; simpl; [reflexivity |].
  intros H. apply andb_prop in H. destruct H as [Hc Hs].
  destruct (is_empty (rstrip s) && is_space c); [reflexivity |].
  simpl. rewrite Hc, (IH Hs). reflexivity.
Qed.

Lemma rstrip_app_space (s : string) (c : ascii) :
  is_space c = true -> rstrip (s ++ String c "") = rstrip s.
Proof.
  intros Hc. induction s as [| x s IH]; simpl.
  - rewrite Hc. reflexivity.
  - rewrite IH. reflexivity.
Qed.

(** ** The commits of a day *)

Lemma mapM_spec {A B} (f : A -> M B) (R : A -> B -> Prop) :
  (forall a g, exists b g', f a g = inr (b, g') /\ R a b) ->
  forall l g, exists bs g', mapM f l g = inr (bs, g') /\ Forall2 R l bs.
Proof.
  intros Hf. induction l as [| a l IH]; intros g.
  - exists []%list, g. split; [reflexivity | constructor].
  - destruct (Hf a g) as (b & g1 & Hb & Hr).
    destruct (IH g1) as (bs & g2 & Hbs & Hrs).
    exists (b :: bs)%list, g2. split; [| constructor; assumption].
    simpl. rewrite (bind_step _ _ _ _ _ Hb), (bind_step _ _ _ _ _ Hbs).
    reflexivity.
Qed.

Lemma commit_at_spec (date : datetime) (hour : Z) g :
  exists c g', commit_at date hour g = inr (c, g') /\ made_at date hour c.
Proof.
  unfold commit_at.
  destruct (randint_total 0 59 g) as (mi & g1 & Hmi); [lia |].
  destruct (randint_total 0 59 g1) as (s & g2 & Hs); [lia |].
  destruct (generate_commit_message_spec plain hour g2 tables_fit_plain)
    as (msg & g3 & _ & _ & _ & Hmsg & _ & _ & _ & _ & _ & Hp).
  exists (commit_record (replace date hour mi s) msg), g3. split.
  - rewrite (bind_step _ _ _ _ _ Hmi), (bind_step _ _ _ _ _ Hs),
      (bind_step _ _ _ _ _ Hmsg). reflexivity.
  - exists mi, s, msg. apply randint_range in Hmi, Hs. auto.
Qed.

(** A day's commits: one record per selected hour, in the order of the
    hours. *)
Lemma generate_commits_for_day_spec (date : datetime) (n : Z)
    (filename : string) g :
  0 <= n ->
  exists hs cs g',
    generate_commits_for_day date n filename g = inr (cs, g')
    /\ len hs = n
    /\ Forall (fun h => 9 <= h < 18) hs
    /\ StronglySorted Z.le hs
    /\ (n <= 9 -> StronglySorted Z.lt hs)
    /\ Forall2 (made_at date) hs cs.
Proof.
  intros Hn. unfold generate_commits_for_day.
  destruct (select_hours_spec n g Hn) as (hs & g1 & Hsel & Hlen & Hr & Hle & Hlt).
  destruct (mapM_spec (commit_at date) (made_at date) (commit_at_spec date) hs g1)
    as (cs & g2 & Hcs & Hall).
  exists hs, cs, g2. rewrite (bind_step _ _ _ _ _ Hsel). auto 10.
Qed.

Lemma generate_commits_for_day_negative (date : datetime) (n : Z)
    (filename : string) g :
  n < 0 -> generate_commits_for_day date n filename g = inl ValueError.
Proof.
  intros Hn. unfold generate_commits_for_day, select_hours.
  apply bind_inl, bind_inl, sample_raises. left. lia.
Qed.

Lemma Forall2_Forall_r {A B} (R : A -> B -> Prop) (P : A -> Prop)
    (Q : B -> Prop) (l : list A) (l' : list B) :
  (forall a b, P a -> R a b -> Q b) ->
  Forall2 R l l' -> Forall P l -> Forall Q l'.
Proof.
  intros H. induction 1 as [| a b l l' Hab _ IH]; intros Hl; constructor;
    inversion Hl; subst; eauto.
Qed.

Lemma Forall2_len {A B} (R : A -> B -> Prop) (l : list A) (l' : list B) :
  Forall2 R l l' -> len l' = len l.
Proof. intros H. unfold len. rewrite (Forall2_length H). reflexivity. Qed.

(** C7: every commit record generated for a day has the hour of its
    timestamp in [9, 18) and its minute and second in [0, 59]. *)
Theorem commit_times_within_work_hours (date : datetime) (n : Z)
    (filename : string) (g : rng) :
  0 <= n ->
  exists cs g',
    generate_commits_for_day date n filename g = inr (cs, g')
    /\ len cs = n
    /\ Forall (fun c =>
         exists h m s,
           time_of_timestamp (timestamp c) = Some (h, m, s)
           /\ time_of_timestamp (iso_timestamp c) = Some (h, m, s)
           /\ 9 <= h < 18 /\ 0 <= m <= 59 /\ 0 <= s <= 59) cs.
Proof.
  intros Hn.
  destruct (generate_commits_for_day_spec date n filename g Hn)
    as (hs & cs & g' & Hrun & Hlen & Hr & _ & _ & Hall).
  exists cs, g'. split; [exact Hrun | split].
  - rewrite (Forall2_len _ _ _ Hall). exact Hlen.
  - eapply Forall2_Forall_r; [| exact Hall | exact Hr].
    intros h c Hh (mi & s & msg & -> & Hmi & Hs & _).
    exists h, mi, s. unfold commit_record. cbn [timestamp iso_timestamp].
    cbv beta in Hh.
    rewrite !time_of_timestamp_strftime by (simpl; lia).
    simpl. auto.
Qed.

Lemma commit_times_within_work_hours_witness :
  exists cs g',
    generate_commits_for_day (midnight 2024 1 1) 3 "work.log" (tape_of [])
    = inr (cs, g')
    /\ len cs = 3
    /\ Forall (fun c =>
         exists h m s,
           time_of_timestamp (timestamp c) = Some (h, m, s)
           /\ time_of_timestamp (iso_timestamp c) = Some (h, m, s)
           /\ 9 <= h < 18 /\ 0 <= m <= 59 /\ 0 <= s <= 59) cs.
Proof.
  apply (commit_times_within_work_hours (midnight 2024 1 1) 3 "work.log"
           (tape_of [])).
  lia.
Defined.

(** ** Quoting in the script *)

Lemma made_at_no_apostrophe (date : datetime) (h : Z) (c : commit) :
  made_at date h c ->
  string_forall not_apostrophe (message c) = true
  /\ string_forall not_apostrophe (rstrip (content c)) = true.
Proof.
  intros (mi & s & msg & -> & _ & _ & Hp).
  assert (Hmsg : string_forall not_apostrophe msg = true)
    by (eapply string_forall_impl; [apply plain_not_apostrophe | exact Hp]).
  split; [exact Hmsg |].
  apply rstrip_forall. unfold commit_record. cbn [content].
  cbn [append string_forall].
  rewrite string_forall_app. cbn [append string_forall].
  rewrite string_forall_app, Hmsg.
  rewrite strftime_forall by reflexivity. reflexivity.
Qed.

(** C10: a generated message holds no apostrophe, so the [echo] line and
    the [git commit] line of its block hold exactly the two apostrophes
    that open and close one quoted string. *)
Theorem messages_stay_inside_their_quotes (date : datetime) (n : Z)
    (filename : string) (g : rng) :
  0 <= n ->
  exists cs g',
    generate_commits_for_day date n filename g = inr (cs, g')
    /\ Forall (fun c =>
         count_char apostrophe (message c) = O
         /\ count_char apostrophe (echo_line c) = 2%nat
         /\ count_char apostrophe (git_commit_line c) = 2%nat) cs.
Proof.
  intros Hn.
  destruct (generate_commits_for_day_spec date n filename g Hn)
    as (hs & cs & g' & Hrun & _ & _ & _ & _ & Hall).
  exists cs, g'. split; [exact Hrun |].
  eapply Forall2_Forall_r with (P := fun _ => True);
    [| exact Hall | apply Forall_forall; trivial].
  intros h c _ Hc. apply made_at_no_apostrophe in Hc. destruct Hc as [Hm Hr].
  apply count_char_apostrophe_0 in Hm, Hr.
  unfold echo_line, git_commit_line.
  rewrite !count_char_app, Hm, Hr. repeat split; reflexivity.
Qed.

Lemma messages_stay_inside_their_quotes_witness :
  exists cs g',
    generate_commits_for_day (midnight 2024 1 1) 12 "work.log" (tape_of [])
    = inr (cs, g')
    /\ Forall (fun c =>
         count_char apostrophe (message c) = O
         /\ count_char apostrophe (echo_line c) = 2%nat
         /\ count_char apostrophe (git_commit_line c) = 2%nat) cs.
Proof.
  apply (messages_stay_inside_their_quotes (midnight 2024 1 1) 12 "work.log"
           (tape_of [])).
  lia.
Defined.

(** ** The script emitter *)

Lemma filter_flat_map_blocks (p : string -> bool) (keep : commit -> list string)
    (commits : list commit) :
  (forall c, filter p (commit_block c) = keep c) ->
  filter p (flat_map commit_block commits) = flat_map keep commits.
Proof.
  intros Hb. induction commits as [| c commits IH]; [reflexivity |].
  cbn [flat_map]. rewrite filter_app, Hb, IH. reflexivity.
Qed.

Lemma script_lines_filter (p : string -> bool) (keep : commit -> list string)
    (head foot : list string) (commits : list commit) (filename : string) :
  (forall c, filter p (commit_block c) = keep c) ->
  filter p (firstn 11 (script_lines commits filename)) = head ->
  filter p ["echo 'All commits created successfully!'"; "git log --oneline -10"]
  = foot ->
  filter p (script_lines commits filename)
  = (head ++ flat_map keep commits ++ foot)%list.
Proof.
  intros Hb Hh Hf. unfold script_lines in *.
  rewrite !filter_app, (filter_flat_map_blocks p keep commits Hb), Hf.
  cbn [firstn app] in Hh. cbn [app]. cbn [app] in Hh. rewrite <- Hh.
  reflexivity.
Qed.

Lemma prefix_nil (s : string) : prefix "" s = true.
Proof. destruct s; reflexivity. Qed.

Lemma commit_block_pair (c : commit) :
  filter (fun line => is_git_add line || is_git_commit line) (commit_block c)
  = stage_and_commit c.
Proof.
  unfold commit_block, stage_and_commit. cbn [filter].
  unfold is_git_add, is_git_commit, echo_line, git_commit_line, git_add_line,
    file_var, dquote.
  cbn. rewrite prefix_nil. reflexivity.
Qed.

Lemma script_lines_pairs (commits : list commit) (filename : string) :
  filter (fun line => is_git_add line || is_git_commit line)
    (script_lines commits filename)
  = flat_map stage_and_commit commits.
Proof.
  rewrite (script_lines_filter
             (fun line => is_git_add line || is_git_commit line)
             stage_and_commit [] [] commits filename);
    [| exact commit_block_pair | reflexivity | reflexivity].
  rewrite app_nil_r. reflexivity.
Qed.

(** ** The lines of the script text *)

Lemma split_lines_app (line rest : string) :
  string_forall not_newline line = true ->
  split_lines (line ++ newline ++ rest) = (line :: split_lines rest)%list.
Proof.
  induction line as [| c line IH]; cbn [string_forall append]; intros H.
  - reflexivity.
  - apply andb_prop in H. destruct H as [Hc Hl].
    cbn [split_lines]. unfold not_newline in Hc. apply negb_true_iff in Hc.
    rewrite Hc, (IH Hl). reflexivity.
Qed.

Lemma split_lines_one (line : string) :
  string_forall not_newline line = true -> split_lines line = [line].
Proof.
  induction line as [| c line IH]; cbn [string_forall]; intros H.
  - reflexivity.
  - apply andb_prop in H. destruct H as [Hc Hl].
    cbn [split_lines]. unfold not_newline in Hc. apply negb_true_iff in Hc.
    rewrite Hc, (IH Hl). reflexivity.
Qed.

(** Splitting the joined lines gives the lines back when none holds a line
    break. *)
Lemma split_lines_concat (lines : list string) :
  lines <> []%list ->
  Forall (fun line => string_forall not_newline line = true) lines ->
  split_lines (String.concat newline lines) = lines.
Proof.
  induction lines as [| line lines IH]; [congruence |].
  intros _ Hall. inversion Hall as [| ? ? Hl Hrest]; subst.
  destruct lines as [| line' lines].
  - simpl. apply split_lines_one, Hl.
  - change (String.concat newline (line :: line' :: lines))
      with (line ++ newline ++ String.concat newline (line' :: lines)).
    rewrite (split_lines_app _ _ Hl), IH by (congruence || assumption).
    reflexivity.
Qed.

Lemma string_app_assoc (a b c : string) : (a ++ b) ++ c = a ++ b ++ c.
Proof. induction a as [| x a IH]; simpl; [reflexivity | rewrite IH; reflexivity]. Qed.

Lemma made_at_on_one_line (date : datetime) (h : Z) (c : commit) :
  made_at date h c -> on_one_line c.
Proof.
  intros (mi & s & msg & -> & _ & _ & Hp).
  assert (Hmsg : string_forall not_newline msg = true)
    by (eapply string_forall_impl; [apply plain_not_newline | exact Hp]).
  unfold on_one_line, commit_record. cbn [message content iso_timestamp].
  split; [exact Hmsg | split].
  - replace ("[" ++ strftime " " (replace date h mi s) ++ "] " ++ msg ++ newline)
      with (("[" ++ strftime " " (replace date h mi s) ++ "] " ++ msg)
            ++ String "010" "")
      by (cbn [append]; f_equal; rewrite !string_app_assoc; reflexivity).
    rewrite rstrip_app_space by reflexivity.
    apply rstrip_forall. cbn [append string_forall].
    rewrite string_forall_app. cbn [append string_forall].
    rewrite Hmsg, strftime_forall by reflexivity. reflexivity.
  - apply strftime_forall; reflexivity.
Qed.

Lemma script_lines_on_one_line (commits : list commit) (filename : string) :
  string_forall not_newline filename = true ->
  Forall on_one_line commits ->
  Forall (fun line => string_forall not_newline line = true)
    (script_lines commits filename).
Proof.
  intros Hf Hall. unfold script_lines.
  apply Forall_app. split; [| apply Forall_app; split].
  - repeat (constructor; [try reflexivity |]); [| constructor].
    unfold file_assignment. rewrite !string_forall_app, Hf. reflexivity.
  - induction Hall as [| c commits (Hm & Hc & Hi) _ IH]; [constructor |].
    cbn [flat_map]. apply Forall_app. split; [| exact IH].
    unfold commit_block, echo_line, git_commit_line.
    repeat (constructor;
            [try reflexivity;
             cbn [append string_forall];
             rewrite ?string_forall_app, ?Hm, ?Hc, ?Hi; reflexivity |]).
    constructor.
  - repeat (constructor; [reflexivity |]). constructor.
Qed.

(** The text of a script for generated records reads back as the lines the
    emitter joined. *)
Lemma script_text_lines (commits : list commit) (filename output_path : string) :
  string_forall not_newline filename = true ->
  Forall on_one_line commits ->
  split_lines (generate_shell_script commits filename output_path)
  = script_lines commits filename.
Proof.
  intros Hf Hall. unfold generate_shell_script.
  apply split_lines_concat; [discriminate |].
  apply script_lines_on_one_line; assumption.
Qed.






(** ** The order of the commits *)

Lemma ascii_compare_refl (c : ascii) : Ascii.compare c c = Eq.
Proof. unfold Ascii.compare. apply N.compare_refl. Qed.

Lemma compare_app_prefix (p a b : string) :
  String.compare (p ++ a) (p ++ b) = String.compare a b.
Proof.
  induction p as [| c p IH]; cbn [append String.compare]; [reflexivity |].
  rewrite ascii_compare_refl. exact IH.
Qed.

(** Strings of one length keep their order when they are extended. *)
Lemma compare_app_lt (p q a b : string) :
  String.length p = String.length q ->
  String.compare p q = Lt -> String.compare (p ++ a) (q ++ b) = Lt.
Proof.
  revert q. induction p as [| c p IH]; intros [| d q]; simpl;
    try discriminate.
  intros Hlen. destruct (Ascii.compare c d); try discriminate; [| reflexivity].
  apply IH. lia.
Qed.

Lemma digit_char_compare (a b : Z) :
  0 <= a <= 9 -> 0 <= b <= 9 ->
  Ascii.compare (digit_char a) (digit_char b) = (a ?= b).
Proof.
  intros Ha Hb.
  assert (Hca : a = 0 \/ a = 1 \/ a = 2 \/ a = 3 \/ a = 4 \/ a = 5 \/ a = 6
                \/ a = 7 \/ a = 8 \/ a = 9) by lia.
  assert (Hcb : b = 0 \/ b = 1 \/ b = 2 \/ b = 3 \/ b = 4 \/ b = 5 \/ b = 6
                \/ b = 7 \/ b = 8 \/ b = 9) by lia.
  repeat (destruct Hca as [-> | Hca]); try subst a;
    repeat (destruct Hcb as [-> | Hcb]); try subst b; reflexivity.
Qed.

Lemma pad2_compare_lt (h1 h2 : Z) (r1 r2 : string) :
  0 <= h1 < h2 -> h2 < 100 ->
  String.compare (pad2 h1 ++ r1) (pad2 h2 ++ r2) = Lt.
Proof.
  intros H1 H2. unfold pad2. cbn [append String.compare].
  assert (Hd1 : 0 <= h1 / 10 < 10)
    by (split; [apply Z.div_pos; lia | apply Z.div_lt_upper_bound; lia]).
  assert (Hd2 : 0 <= h2 / 10 < 10)
    by (split; [apply Z.div_pos; lia | apply Z.div_lt_upper_bound; lia]).
  pose proof (Z.mod_pos_bound h1 10 eq_refl).
  pose proof (Z.mod_pos_bound h2 10 eq_refl).
  pose proof (Z.div_mod h1 10). pose proof (Z.div_mod h2 10).
  rewrite !(Z.mod_small (_ / 10) 10) by lia.
  rewrite !digit_char_compare by lia.
  destruct (Z.compare_spec (h1 / 10) (h2 / 10)) as [Heq | Hlt | Hgt].
  - destruct (Z.compare_spec (h1 mod 10) (h2 mod 10)); [lia | reflexivity | lia].
  - reflexivity.
  - lia.
Qed.

Lemma date_text_replace (d : datetime) (h m s : Z) :
  date_text (replace d h m s) = date_text d.
Proof. reflexivity. Qed.

(** Two records of one day: the one at the earlier hour has the earlier
    timestamp. *)
Lemma made_at_earlier_hour (d : datetime) (h1 h2 : Z) (c1 c2 : commit) :
  made_at d h1 c1 -> made_at d h2 c2 ->
  0 <= h1 < h2 -> h2 < 100 -> earlier c1 c2.
Proof.
  intros (m1 & s1 & msg1 & -> & _) (m2 & s2 & msg2 & -> & _) H1 H2.
  unfold earlier, String.ltb, commit_record, strftime. cbn [timestamp].
  rewrite !date_text_replace, !compare_app_prefix.
  unfold time_text. cbn [hour minute second replace].
  rewrite pad2_compare_lt by assumption. reflexivity.
Qed.

(** Two records of different days whose dates have one width and print in
    order. *)
Lemma made_at_earlier_day (d1 d2 : datetime) (h1 h2 : Z) (c1 c2 : commit) :
  made_at d1 h1 c1 -> made_at d2 h2 c2 ->
  String.length (date_text d1) = String.length (date_text d2) ->
  String.compare (date_text d1) (date_text d2) = Lt -> earlier c1 c2.
Proof.
  intros (m1 & s1 & msg1 & -> & _) (m2 & s2 & msg2 & -> & _) Hlen Hlt.
  unfold earlier, String.ltb, commit_record, strftime. cbn [timestamp].
  rewrite !date_text_replace.
  rewrite compare_app_lt; [reflexivity | exact Hlen | exact Hlt].
Qed.

Lemma made_at_date (d : datetime) (h : Z) (c : commit) :
  made_at d h c -> date_of_timestamp (timestamp c) = date_text d.
Proof.
  intros (m & s & msg & -> & _).
  unfold commit_record. cbn [timestamp].
  rewrite date_of_timestamp_strftime. apply date_text_replace.
Qed.

(** With at most nine commits a day the hours are distinct and the
    timestamps of the day strictly increase. *)
Lemma day_commits_increase (d : datetime) (hs : list Z) (cs : list commit) :
  Forall2 (made_at d) hs cs ->
  Forall (fun h => 9 <= h < 18) hs ->
  StronglySorted Z.lt hs ->
  StronglySorted earlier cs.
Proof.
  induction 1 as [| h c hs cs Hc Hall IH]; intros Hr Hs; [constructor |].
  inversion Hr as [| ? ? Hh Hr']; subst.
  inversion Hs as [| ? ? Hs' Hlt]; subst.
  constructor; [exact (IH Hr' Hs') |].
  eapply Forall2_Forall_r with (P := fun h' => h < h' < 18);
    [| exact Hall |].
  - intros h' c' Hh' Hc'. cbv beta in Hh'.
    eapply made_at_earlier_hour; [exact Hc | exact Hc' | lia | lia].
  - rewrite Forall_forall in *. intros h' Hin.
    specialize (Hlt h' Hin). specialize (Hr' h' Hin). cbv beta in Hr'. lia.
Qed.

(** C3 at a day of ten commits ([--min-commits 10 --max-commits 10] on
    2024-01-01): the two commits of 9 o'clock come out as 09:50:00 followed
    by 09:10:00, the second before the first, so the commits of the day are
    not in non-decreasing time order. *)
Lemma same_hour_commits_out_of_order :
  exists r g',
    main same_hour_args same_hour_tape = inr (r, g')
    /\ workdays r = [midnight 2024 1 1]
    /\ len (all_commits r) = 10
    /\ map timestamp (firstn 2 (all_commits r))
       = ["2024-01-01 09:50:00"; "2024-01-01 09:10:00"]
    /\ ~ Sorted (fun a b => String.leb (timestamp a) (timestamp b) = true)
           (all_commits r).
Proof.
  destruct (main same_hour_args same_hour_tape) as [e | [r g']] eqn:Hrun;
    [vm_compute in Hrun; discriminate |].
  exists r, g'. split; [reflexivity |].
  vm_compute in Hrun. injection Hrun as <- _.
  split; [reflexivity | split; [reflexivity | split; [reflexivity |]]].
  cbn [all_commits]. intros Hs. inversion Hs as [| ? ? _ Hhd]; subst.
  inversion Hhd as [| ? ? Hle]; subst.
  vm_compute in Hle. discriminate.
Qed.

(** ** The run of the end-to-end example *)

Lemma example_range :
  date_range example_args = inr (midnight 2024 1 1, midnight 2024 1 6).
Proof. reflexivity. Qed.

Lemma example_workdays :
  collect_workdays (midnight 2024 1 1) (midnight 2024 1 6)
  = map (midnight 2024 1) [1; 2; 3; 4; 5].
Proof. reflexivity. Qed.

(** With both bounds at 2 a workday gets two commits, at two different
    hours. *)
Lemma example_day (d : datetime) g :
  exists cs g',
    commits_of_workday example_args d g = inr (cs, g')
    /\ exists c1 c2 h1 h2,
         cs = [c1; c2] /\ 9 <= h1 < h2 /\ h2 < 18
         /\ made_at d h1 c1 /\ made_at d h2 c2.
Proof.
  unfold commits_of_workday. cbn [args_min_commits args_max_commits args_file example_args].
  destruct (randint_total 2 2 g) as (n & g1 & Hn); [lia |].
  assert (n = 2) by (apply randint_range in Hn; lia). subst n.
  destruct (generate_commits_for_day_spec d 2 "work.log" g1)
    as (hs & cs & g2 & Hrun & Hlen & Hr & _ & Hlt & Hall); [lia |].
  exists cs, g2. split; [rewrite (bind_step _ _ _ _ _ Hn); exact Hrun |].
  specialize (Hlt ltac:(lia)).
  destruct hs as [| h1 [| h2 [| h3 hs]]]; try (unfold len in Hlen; simpl in Hlen; lia).
  inversion Hall as [| ? c1 ? cs1 Hc1 Hall1]; subst.
  inversion Hall1 as [| ? c2 ? cs2 Hc2 Hall2]; subst.
  inversion Hall2; subst.
  exists c1, c2, h1, h2.
  inversion Hlt as [| ? ? _ Hf]; subst. inversion Hf as [| ? ? Hlt12 _]; subst.
  inversion Hr as [| ? ? Hr1 Hr']; subst. inversion Hr' as [| ? ? Hr2 _]; subst.
  cbv beta in *. repeat split; try assumption; lia.
Qed.

(** Five days in the order of their dates, two commits on each. *)
Lemma five_days_of_two_commits (d1 d2 d3 d4 d5 : datetime) g :
  map date_text [d1; d2; d3; d4; d5]
  = ["2024-01-01"; "2024-01-02"; "2024-01-03"; "2024-01-04"; "2024-01-05"] ->
  exists days g',
    mapM (commits_of_workday example_args) [d1; d2; d3; d4; d5] g
    = inr (days, g')
    /\ Forall (fun d => len (commits_on d (List.concat days)) = 2)
         [d1; d2; d3; d4; d5]
    /\ len (List.concat days) = 10
    /\ Forall on_one_line (List.concat days)
    /\ Sorted earlier (List.concat days).
Proof.
  intros Hdates. injection Hdates as Hd1 Hd2 Hd3 Hd4 Hd5.
  destruct (mapM_spec (commits_of_workday example_args)
              (fun d cs => exists c1 c2 h1 h2,
                   cs = [c1; c2] /\ 9 <= h1 < h2 /\ h2 < 18
                   /\ made_at d h1 c1 /\ made_at d h2 c2)
              example_day [d1; d2; d3; d4; d5] g)
    as (days & g' & Hdays & Hall).
  exists days, g'. split; [exact Hdays |]. clear Hdays.
  repeat match goal with
         | H : Forall2 _ (_ :: _) _ |- _ =>
             inversion H as [| ? ? ? ? (? & ? & ? & ? & -> & ? & ? & ? & ?)];
             clear H; subst
         | H : Forall2 _ [] _ |- _ => inversion H; clear H; subst
         end.
  cbn [List.concat app].
  split; [| split; [reflexivity | split]].
  - unfold commits_on. cbn [filter].
    repeat match goal with
           | H : made_at _ _ _ |- _ =>
               rewrite (made_at_date _ _ _ H); clear H
           end.
    repeat (constructor;
            [cbv beta; rewrite ?Hd1, ?Hd2, ?Hd3, ?Hd4, ?Hd5; reflexivity |]).
    constructor.
  - repeat (constructor; [eapply made_at_on_one_line; eassumption |]).
    constructor.
  - repeat (apply Sorted_cons;
            [| first
                 [ apply HdRel_nil
                 | apply HdRel_cons;
                   first
                     [ eapply made_at_earlier_hour;
                       [eassumption | eassumption | lia | lia]
                     | eapply made_at_earlier_day;
                       [eassumption | eassumption | |];
                       rewrite ?Hd1, ?Hd2, ?Hd3, ?Hd4, ?Hd5; reflexivity ] ] ]).
    apply Sorted_nil.
Qed.

(** C1, as the code has it: the run over 2024-01-01 .. 2024-01-05 with two
    commits a day and no vacation succeeds for every sequence of draws; it
    has the five active workdays from Monday 2024-01-01 to Friday
    2024-01-05 (the end date is included), two commits on each of them, ten
    commits in all, and its script holds the ten stage-and-commit pairs of
    these commits, in the order of their strictly increasing timestamps. *)
Theorem example_run_has_five_workdays (g : rng) :
  exists r g',
    main example_args g = inr (r, g')
    /\ workdays r = map (midnight 2024 1) [1; 2; 3; 4; 5]
    /\ Forall (fun d => len (commits_on d (all_commits r)) = 2) (workdays r)
    /\ len (all_commits r) = 10
    /\ filter (fun line => is_git_add line || is_git_commit line)
         (split_lines (script_content r))
       = flat_map stage_and_commit (all_commits r)
    /\ Sorted earlier (all_commits r).
Proof.
  destruct (five_days_of_two_commits
              (midnight 2024 1 1) (midnight 2024 1 2) (midnight 2024 1 3)
              (midnight 2024 1 4) (midnight 2024 1 5) g eq_refl)
    as (days & g' & Hdays & Hon & Hlen & Hline & Hsorted).
  unfold main. rewrite example_range. unfold lift at 1, ret at 1, bind at 1.
  rewrite example_workdays.
  change (resolve_vacation_days (args_vacation_days example_args)
            (map (midnight 2024 1) [1; 2; 3; 4; 5])) with 0.
  change (apply_vacation (map (midnight 2024 1) [1; 2; 3; 4; 5]) 0)
    with (@ret (Z * list datetime) (0, map (midnight 2024 1) [1; 2; 3; 4; 5])).
  unfold ret at 1, bind at 1.
  change (map (midnight 2024 1) [1; 2; 3; 4; 5])
    with [midnight 2024 1 1; midnight 2024 1 2; midnight 2024 1 3;
          midnight 2024 1 4; midnight 2024 1 5].
  rewrite (bind_step _ _ _ _ _ Hdays). unfold ret.
  eexists _, g'. split; [reflexivity |].
  cbn [workdays all_commits script_content].
  split; [reflexivity | split; [exact Hon | split; [exact Hlen | split]]].
  - rewrite script_text_lines.
    + apply script_lines_pairs.
    + reflexivity.
    + exact Hline.
  - exact Hsorted.
Qed.

(** C1 as stated fails: the run has five active workdays and ten commits,
    not four and eight. *)
Lemma example_run_is_not_four_days :
  exists r g',
    main example_args (tape_of []) = inr (r, g')
    /\ len (workdays r) = 5
    /\ len (all_commits r) = 10
    /\ len (workdays r) <> 4
    /\ len (all_commits r) <> 8.
Proof.
  destruct (main example_args (tape_of [])) as [e | [r g']] eqn:Hrun;
    [vm_compute in Hrun; discriminate |].
  exists r, g'. split; [reflexivity |].
  vm_compute in Hrun. injection Hrun as <- _.
  repeat split; try reflexivity; vm_compute; discriminate.
Qed.

(** * Further properties of the synthesizer *)

(** ** What a successful day went through *)

Lemma select_hours_negative (n : Z) g :
  n < 0 -> select_hours n g = inl ValueError.
Proof.
  intros Hn. unfold select_hours. apply bind_inl, sample_raises. left. lia.
Qed.

(** From nine commits on, the sample takes every working hour. *)
Lemma select_hours_exhausts (n : Z) g :
  9 <= n ->
  exists hs g',
    select_hours n g = inr (hs, g')
    /\ forall h, 9 <= h < 18 -> In h hs.
Proof.
  intros Hn. unfold select_hours.
  assert (Hlen9 : len work_hours = 9) by reflexivity.
  destruct (sample_spec work_hours (Z.min n (len work_hours)) g)
    as (picked & g1 & rest & Hs & Hlen & Hperm); [lia |].
  destruct (fill_hours_spec (Z.to_nat (n - len (sorted picked))) (sorted picked) g1)
    as (extra & g2 & Hfill & Hextra & _).
  rewrite len_sorted, Hlen in Hextra.
  set (hs := (sorted picked ++ extra)%list) in *.
  assert (Hhs : len hs = n).
  { unfold hs. rewrite len_app, len_sorted, Hlen. unfold len at 2.
    rewrite Hextra, Hlen9. lia. }
  assert (Hfirst : firstn (Z.to_nat n) hs = hs).
  { apply firstn_all2. unfold len in Hhs. lia. }
  assert (Hrest : rest = []%list).
  { apply Permutation_length in Hperm. rewrite length_app in Hperm.
    rewrite Hlen9 in Hlen. unfold len in Hlen.
    change (List.length work_hours) with 9%nat in Hperm.
    destruct rest; [reflexivity | simpl in Hperm; lia]. }
  exists (sorted hs), g2. split.
  - rewrite (bind_step _ _ _ _ _ Hs). cbv zeta.
    rewrite (bind_step _ _ _ _ _ Hfill), Hfirst. reflexivity.
  - intros h Hh. apply work_hours_range in Hh.
    eapply Permutation_in; [symmetry; apply sorted_perm |].
    unfold hs. apply in_or_app. left.
    eapply Permutation_in; [symmetry; apply sorted_perm |].
    subst rest. rewrite app_nil_r in Hperm.
    eapply Permutation_in; [exact Hperm | exact Hh].
Qed.

Lemma select_hours_inv (n : Z) g hs g' :
  select_hours n g = inr (hs, g') ->
  0 <= n
  /\ len hs = n
  /\ Forall (fun h => 9 <= h < 18) hs
  /\ StronglySorted Z.le hs
  /\ (n <= 9 -> StronglySorted Z.lt hs)
  /\ (9 <= n -> forall h, 9 <= h < 18 -> In h hs).
Proof.
  intros Hrun.
  destruct (Z.lt_ge_cases n 0) as [Hneg | Hn].
  { rewrite select_hours_negative in Hrun by exact Hneg. discriminate. }
  destruct (select_hours_spec n g Hn) as (hs0 & g0 & H0 & Hlen & Hr & Hle & Hlt).
  rewrite Hrun in H0. injection H0 as <- <-.
  repeat split; try assumption.
  intros H9. destruct (select_hours_exhausts n g H9) as (hs1 & g1 & H1 & Hall).
  rewrite Hrun in H1. injection H1 as <- <-. exact Hall.
Qed.

Lemma commit_at_inv (date : datetime) (h : Z) g c g' :
  commit_at date h g = inr (c, g') -> made_at date h c.
Proof.
  intros Hrun. destruct (commit_at_spec date h g) as (c0 & g0 & H0 & Hm).
  rewrite Hrun in H0. injection H0 as <- <-. exact Hm.
Qed.

Lemma generate_commits_for_day_inv (date : datetime) (n : Z)
    (filename : string) g cs g' :
  generate_commits_for_day date n filename g = inr (cs, g') ->
  exists hs g1,
    select_hours n g = inr (hs, g1) /\ Forall2 (made_at date) hs cs.
Proof.
  unfold generate_commits_for_day. intros H. invert_bind H.
  exists a, g0. split; [exact Hm |].
  apply mapM_Forall2 in H.
  eapply Forall2_impl; [| exact H].
  intros h c (g1 & g2 & Hc). exact (commit_at_inv _ _ _ _ _ Hc).
Qed.

Lemma made_at_hour (d : datetime) (h : Z) (c : commit) :
  made_at d h c -> 0 <= h < 100 -> hour_of_commit c = Some h.
Proof.
  intros (mi & s & msg & -> & Hmi & Hs & _) Hh.
  unfold hour_of_commit, commit_record. cbn [timestamp].
  rewrite time_of_timestamp_strftime by (simpl; lia). reflexivity.
Qed.

Lemma Forall2_made_at_hours (d : datetime) (hs : list Z) (cs : list commit) :
  Forall2 (made_at d) hs cs ->
  Forall (fun h => 9 <= h < 18) hs ->
  map hour_of_commit cs = map Some hs.
Proof.
  induction 1 as [| h c hs cs Hc _ IH]; intros Hr; [reflexivity |].
  inversion Hr as [| ? ? Hh Hr']; subst. cbv beta in Hh.
  cbn [map]. rewrite (made_at_hour d h c Hc) by lia. rewrite (IH Hr').
  reflexivity.
Qed.

(** X1: whatever the number of commits of a day, the hours printed in their
    timestamps are working hours in non-decreasing order. *)
Theorem day_hours_never_decrease (date : datetime) (n : Z)
    (filename : string) (g : rng) :
  0 <= n ->
  exists cs g' hs,
    generate_commits_for_day date n filename g = inr (cs, g')
    /\ map hour_of_commit cs = map Some hs
    /\ len hs = n
    /\ StronglySorted Z.le hs.
Proof.
  intros Hn.
  destruct (generate_commits_for_day_spec date n filename g Hn)
    as (hs & cs & g' & Hrun & Hlen & Hr & Hle & _ & Hall).
  exists cs, g', hs. repeat split; try assumption.
  apply (Forall2_made_at_hours date); assumption.
Qed.

Lemma day_hours_never_decrease_witness :
  exists cs g' hs,
    generate_commits_for_day (midnight 2024 1 1) 12 "work.log" (tape_of [])
    = inr (cs, g')
    /\ map hour_of_commit cs = map Some hs
    /\ len hs = 12
    /\ StronglySorted Z.le hs.
Proof.
  apply (day_hours_never_decrease (midnight 2024 1 1) 12 "work.log" (tape_of [])).
  lia.
Defined.

(** X2: with at most nine commits a day the commits fall in different hours
    and their timestamps strictly increase. *)
Theorem day_of_at_most_nine_commits_is_in_order (date : datetime) (n : Z)
    (filename : string) (g : rng) :
  0 <= n <= 9 ->
  exists cs g' hs,
    generate_commits_for_day date n filename g = inr (cs, g')
    /\ map hour_of_commit cs = map Some hs
    /\ NoDup hs
    /\ StronglySorted earlier cs.
Proof.
  intros Hn.
  destruct (generate_commits_for_day_spec date n filename g (proj1 Hn))
    as (hs & cs & g' & Hrun & Hlen & Hr & _ & Hlt & Hall).
  specialize (Hlt (proj2 Hn)).
  exists cs, g', hs. split; [exact Hrun | split; [| split]].
  - apply (Forall2_made_at_hours date); assumption.
  - clear -Hlt. induction Hlt as [| h hs _ IH Hall]; constructor; [| exact IH].
    intros Hin. rewrite Forall_forall in Hall. specialize (Hall h Hin). lia.
  - eapply day_commits_increase; eassumption.
Qed.

Lemma day_of_at_most_nine_commits_is_in_order_witness :
  exists cs g' hs,
    generate_commits_for_day (midnight 2024 1 1) 9 "work.log" (tape_of [])
    = inr (cs, g')
    /\ map hour_of_commit cs = map Some hs
    /\ NoDup hs
    /\ StronglySorted earlier cs.
Proof.
  apply (day_of_at_most_nine_commits_is_in_order (midnight 2024 1 1) 9
           "work.log" (tape_of [])).
  lia.
Defined.

(** X3: from nine commits a day on, every working hour from 9 to 17 has a
    commit. *)
Theorem day_of_nine_commits_uses_every_hour (date : datetime) (n : Z)
    (filename : string) (g : rng) :
  9 <= n ->
  exists cs g',
    generate_commits_for_day date n filename g = inr (cs, g')
    /\ len cs = n
    /\ forall h, 9 <= h < 18 ->
       exists c, In c cs /\ hour_of_commit c = Some h.
Proof.
  intros Hn.
  destruct (generate_commits_for_day_spec date n filename g)
    as (hs0 & cs & g' & Hrun & _); [lia |].
  destruct (generate_commits_for_day_inv _ _ _ _ _ _ Hrun)
    as (hs & g1 & Hsel & Hall).
  apply select_hours_inv in Hsel.
  destruct Hsel as (_ & Hlen & Hr & _ & _ & Hex).
  exists cs, g'. split; [exact Hrun | split].
  - rewrite (Forall2_len _ _ _ Hall). exact Hlen.
  - intros h Hh. specialize (Hex Hn h Hh).
    clear -Hex Hall Hh.
    induction Hall as [| h' c hs cs Hc _ IH]; [contradiction |].
    destruct Hex as [-> | Hin].
    + exists c. split; [left; reflexivity |].
      apply (made_at_hour date); [exact Hc | lia].
    + destruct (IH Hin) as (c' & Hc' & Hh'). exists c'. split; [right |]; assumption.
Qed.

Lemma day_of_nine_commits_uses_every_hour_witness :
  exists cs g',
    generate_commits_for_day (midnight 2024 1 1) 11 "work.log" (tape_of [])
    = inr (cs, g')
    /\ len cs = 11
    /\ forall h, 9 <= h < 18 ->
       exists c, In c cs /\ hour_of_commit c = Some h.
Proof.
  apply (day_of_nine_commits_uses_every_hour (midnight 2024 1 1) 11
           "work.log" (tape_of [])).
  lia.
Defined.

(** ** The commit count of a workday *)

Lemma generate_commits_for_day_length (date : datetime) (n : Z)
    (filename : string) g cs g' :
  generate_commits_for_day date n filename g = inr (cs, g') ->
  0 <= n /\ len cs = n.
Proof.
  intros Hrun.
  destruct (generate_commits_for_day_inv _ _ _ _ _ _ Hrun)
    as (hs & g1 & Hsel & Hall).
  apply select_hours_inv in Hsel. destruct Hsel as (Hn & Hlen & _).
  split; [exact Hn |]. rewrite (Forall2_len _ _ _ Hall). exact Hlen.
Qed.

Lemma commits_of_workday_inv (a : args) (d : datetime) g cs g' :
  commits_of_workday a d g = inr (cs, g') ->
  args_min_commits a <= len cs <= args_max_commits a
  /\ 0 <= len cs
  /\ exists hs, Forall2 (made_at d) hs cs /\ Forall (fun h => 9 <= h < 18) hs.
Proof.
  unfold commits_of_workday. intros H. invert_bind H.
  apply randint_range in Hm.
  destruct (generate_commits_for_day_length _ _ _ _ _ _ H) as (Hn & Hlen).
  destruct (generate_commits_for_day_inv _ _ _ _ _ _ H) as (hs & g1 & Hsel & Hall).
  apply select_hours_inv in Hsel. destruct Hsel as (_ & _ & Hr & _).
  repeat split; try lia. exists hs. split; assumption.
Qed.

(** X4: with [0 <= min-commits <= max-commits] a workday always gets its
    commits, and their number lies between the two bounds. *)
Theorem workday_commit_count_within_bounds (a : args) (d : datetime) (g : rng) :
  0 <= args_min_commits a <= args_max_commits a ->
  exists cs g',
    commits_of_workday a d g = inr (cs, g')
    /\ args_min_commits a <= len cs <= args_max_commits a.
Proof.
  intros Hb. unfold commits_of_workday.
  destruct (randint_total (args_min_commits a) (args_max_commits a) g)
    as (n & g1 & Hn); [lia |].
  pose proof (randint_range _ _ _ _ _ Hn) as Hr.
  destruct (generate_commits_for_day_spec d n (args_file a) g1)
    as (hs & cs & g2 & Hrun & Hlen & _ & _ & _ & Hall); [lia |].
  exists cs, g2. split; [rewrite (bind_step _ _ _ _ _ Hn); exact Hrun |].
  rewrite (Forall2_len _ _ _ Hall), Hlen. exact Hr.
Qed.

Lemma workday_commit_count_within_bounds_witness :
  exists cs g',
    commits_of_workday week_args (midnight 2024 1 1) (tape_of [4]) = inr (cs, g')
    /\ args_min_commits week_args <= len cs <= args_max_commits week_args.
Proof.
  apply (workday_commit_count_within_bounds week_args (midnight 2024 1 1)
           (tape_of [4])).
  simpl. lia.
Defined.

(** X5: when [max-commits] is below [min-commits] or negative, no workday
    gets commits: drawing the count or sampling the hours raises
    [ValueError]. *)
Theorem workday_with_bad_bounds_raises (a : args) (d : datetime) (g : rng) :
  args_max_commits a < args_min_commits a \/ args_max_commits a < 0 ->
  commits_of_workday a d g = inl ValueError.
Proof.
  intros Hbad. unfold commits_of_workday.
  destruct (Z.lt_ge_cases (args_max_commits a) (args_min_commits a)) as [Hlt | Hle].
  - apply bind_inl, randint_empty, Hlt.
  - destruct Hbad as [Hbad | Hneg]; [lia |].
    destruct (randint_total (args_min_commits a) (args_max_commits a) g)
      as (n & g1 & Hn); [lia |].
    pose proof (randint_range _ _ _ _ _ Hn) as Hr.
    rewrite (bind_step _ _ _ _ _ Hn).
    apply generate_commits_for_day_negative. lia.
Qed.

Lemma workday_with_bad_bounds_raises_witness :
  commits_of_workday
    (mkArgs 2024 None None 12 5 3 "work.log" "create_commits.sh" 0)
    (midnight 2024 1 1) (tape_of [])
  = inl ValueError.
Proof.
  apply (workday_with_bad_bounds_raises
           (mkArgs 2024 None None 12 5 3 "work.log" "create_commits.sh" 0)
           (midnight 2024 1 1) (tape_of [])).
  left. simpl. lia.
Defined.

(** ** The workday sequence *)

Lemma iter_next_day (k : nat) (d : datetime) :
  Nat.iter k next_day d
  = mkDatetime (ordinal d + Z.of_nat k) (hour d) (minute d) (second d).
Proof.
  induction k as [| k IH].
  - destruct d. simpl. f_equal. lia.
  - rewrite Nat.iter_succ, IH. unfold next_day. simpl. f_equal. lia.
Qed.

(** X6: the workday sequence holds exactly the dates a whole number of days
    after the start that are before the end and fall on Monday to
    Friday. *)
Theorem collect_workdays_exactly (start_date end_date d : datetime) :
  In d (collect_workdays start_date end_date)
  <-> (exists k : nat, d = Nat.iter k next_day start_date)
      /\ datetime_ltb d end_date = true
      /\ is_workday d = true.
Proof.
  split.
  - intros Hin. apply workdays_loop_In in Hin.
    destruct Hin as (Hw & Hord & Hlt & Htime).
    split; [| split; assumption].
    exists (Z.to_nat (ordinal d - ordinal start_date)).
    rewrite iter_next_day. injection Htime as Hh Hm Hs.
    destruct d as [o h m s]. simpl in *. subst. f_equal. lia.
  - intros ((k & ->) & Hlt & Hw). apply collect_workdays_complete; assumption.
Qed.

Lemma datetime_ltb_before a b : ordinal a < ordinal b -> datetime_ltb a b = true.
Proof.
  intros H. unfold datetime_ltb. apply orb_true_iff. left.
  apply Z.ltb_lt. exact H.
Qed.

Lemma collect_workdays_sorted (start_date end_date : datetime) :
  StronglySorted (fun a b => datetime_ltb a b = true)
    (collect_workdays start_date end_date).
Proof.
  pose proof (workdays_loop_sorted
                (Z.to_nat (ordinal end_date - ordinal start_date + 1))
                start_date end_date) as Hs.
  fold (collect_workdays start_date end_date) in Hs.
  induction Hs as [| a l _ IH Hall]; constructor; [exact IH |].
  eapply Forall_impl; [| exact Hall].
  intros b Hb. apply datetime_ltb_before. exact Hb.
Qed.

(** X7: the workday sequence is in strictly ascending order of date, so no
    date occurs twice, and none of its dates is before the start. *)
Theorem collect_workdays_ascending (start_date end_date : datetime) :
  StronglySorted (fun a b => datetime_ltb a b = true)
    (collect_workdays start_date end_date)
  /\ NoDup (collect_workdays start_date end_date)
  /\ Forall (fun d => datetime_ltb d start_date = false)
       (collect_workdays start_date end_date).
Proof.
  split; [| split].
  - apply collect_workdays_sorted.
  - apply collect_workdays_NoDup.
  - apply Forall_forall. intros d Hd. apply workdays_loop_In in Hd.
    destruct Hd as (_ & Hord & _ & Htime). injection Htime as Hh Hm Hs.
    unfold datetime_ltb. rewrite Hh, Hm, Hs, !Z.ltb_irrefl.
    destruct (Z.ltb_spec (ordinal d) (ordinal start_date)); [lia |].
    rewrite !andb_false_r. reflexivity.
Qed.

(** Fuel beyond what the loop needs changes nothing. *)
Lemma workdays_loop_more_fuel (extra fuel : nat) (current end_date : datetime) :
  ordinal end_date - ordinal current + 1 <= Z.of_nat fuel ->
  workdays_loop (extra + fuel) current end_date
  = workdays_loop fuel current end_date.
Proof.
  intros Hf. induction extra as [| extra IH]; [reflexivity |].
  rewrite Nat.add_succ_l, workdays_loop_fuel by lia. exact IH.
Qed.

Lemma workdays_loop_enough (fuel : nat) (current end_date : datetime) :
  ordinal end_date - ordinal current + 1 <= Z.of_nat fuel ->
  workdays_loop fuel current end_date = collect_workdays current end_date.
Proof.
  intros Hf. unfold collect_workdays.
  set (need := Z.to_nat (ordinal end_date - ordinal current + 1)).
  replace fuel with ((fuel - need) + need)%nat by lia.
  apply workdays_loop_more_fuel. lia.
Qed.

Lemma collect_workdays_step (current end_date : datetime) :
  collect_workdays current end_date
  = if datetime_ltb current end_date then
      if is_workday current
      then current :: collect_workdays (next_day current) end_date
      else collect_workdays (next_day current) end_date
    else [].
Proof.
  destruct (datetime_ltb current end_date) eqn:Hlt.
  - unfold collect_workdays at 1.
    apply datetime_ltb_ordinal in Hlt as Hle.
    replace (Z.to_nat (ordinal end_date - ordinal current + 1))
      with (S (Z.to_nat (ordinal end_date - ordinal current))) by lia.
    cbn [workdays_loop]. rewrite Hlt.
    rewrite (workdays_loop_enough _ (next_day current)) by (simpl; lia).
    reflexivity.
  - unfold collect_workdays.
    destruct (Z.to_nat (ordinal end_date - ordinal current + 1));
      [reflexivity | cbn [workdays_loop]; rewrite Hlt; reflexivity].
Qed.

(** A range splits at any day in it. *)
Lemma collect_workdays_split (k : nat) :
  forall (start_date end_date : datetime),
    datetime_ltb end_date (Nat.iter k next_day start_date) = false ->
    (hour end_date, minute end_date, second end_date)
    = (hour start_date, minute start_date, second start_date) ->
    collect_workdays start_date end_date
    = (collect_workdays start_date (Nat.iter k next_day start_date)
       ++ collect_workdays (Nat.iter k next_day start_date) end_date)%list.
Proof.
  induction k as [| k IH]; intros start_date end_date Hle Htime.
  - change (Nat.iter 0 next_day start_date) with start_date.
    assert (Hempty : collect_workdays start_date start_date = []%list).
    { rewrite collect_workdays_step.
      unfold datetime_ltb. rewrite !Z.ltb_irrefl, !andb_false_r. reflexivity. }
    rewrite Hempty. reflexivity.
  - rewrite Nat.iter_succ_r in *.
    rewrite iter_next_day in Hle. injection Htime as Hh Hm Hs.
    assert (Hord : ordinal start_date + 1 + Z.of_nat k <= ordinal end_date).
    { unfold datetime_ltb in Hle. simpl in Hle.
      rewrite Hh, Hm, Hs, !Z.ltb_irrefl, !andb_false_r, !orb_false_r in Hle.
      apply Z.ltb_ge in Hle. exact Hle. }
    rewrite (collect_workdays_step start_date end_date).
    rewrite (collect_workdays_step start_date (Nat.iter k next_day (next_day start_date))).
    rewrite !datetime_ltb_before
      by (rewrite ?iter_next_day; simpl; lia).
    rewrite (IH (next_day start_date) end_date).
    + destruct (is_workday start_date); reflexivity.
    + rewrite iter_next_day. simpl.
      unfold datetime_ltb. simpl.
      rewrite Hh, Hm, Hs, !Z.ltb_irrefl, !andb_false_r, !orb_false_r.
      apply Z.ltb_ge. lia.
    + simpl. rewrite Hh, Hm, Hs. reflexivity.
Qed.

Lemma weekday_shift (d : datetime) (k : Z) :
  weekday (mkDatetime (ordinal d + k) (hour d) (minute d) (second d))
  = (ordinal d mod 7 + (k + 6)) mod 7.
Proof.
  unfold weekday. simpl. rewrite Z.add_mod_idemp_l by lia. f_equal. lia.
Qed.

(** Seven days in a row hold five workdays. *)
Lemma one_week_has_five_workdays (start_date : datetime) :
  len (collect_workdays start_date (Nat.iter 7 next_day start_date)) = 5.
Proof.
  assert (Hstep : forall j : nat, (j < 7)%nat ->
            collect_workdays (Nat.iter j next_day start_date)
              (Nat.iter 7 next_day start_date)
            = if is_workday (Nat.iter j next_day start_date)
              then (Nat.iter j next_day start_date
                    :: collect_workdays (Nat.iter (S j) next_day start_date)
                         (Nat.iter 7 next_day start_date))%list
              else collect_workdays (Nat.iter (S j) next_day start_date)
                     (Nat.iter 7 next_day start_date)).
  { intros j Hj. rewrite collect_workdays_step at 1.
    rewrite datetime_ltb_before by (rewrite !iter_next_day; simpl; lia).
    reflexivity. }
  assert (Hend : collect_workdays (Nat.iter 7 next_day start_date)
                   (Nat.iter 7 next_day start_date) = []%list).
  { rewrite collect_workdays_step.
    unfold datetime_ltb. rewrite !Z.ltb_irrefl, !andb_false_r. reflexivity. }
  change start_date with (Nat.iter 0 next_day start_date) at 1.
  rewrite !Hstep, Hend by lia.
  unfold is_workday. rewrite !iter_next_day, !weekday_shift.
  pose proof (Z.mod_pos_bound (ordinal start_date) 7 eq_refl) as Hr.
  assert (Hc : ordinal start_date mod 7 = 0 \/ ordinal start_date mod 7 = 1
               \/ ordinal start_date mod 7 = 2 \/ ordinal start_date mod 7 = 3
               \/ ordinal start_date mod 7 = 4 \/ ordinal start_date mod 7 = 5
               \/ ordinal start_date mod 7 = 6) by lia.
  clear Hstep Hend.
  repeat (destruct Hc as [-> | Hc]; [reflexivity |]). rewrite Hc. reflexivity.
Qed.

(** X8: a range of whole weeks holds five workdays for each of its
    weeks, whatever the day it starts on. *)
Theorem whole_weeks_have_five_workdays_each (weeks : nat)
    (start_date : datetime) :
  len (collect_workdays start_date (Nat.iter (7 * weeks) next_day start_date))
  = 5 * Z.of_nat weeks.
Proof.
  revert start_date. induction weeks as [| weeks IH]; intros start_date.
  - change (Nat.iter (7 * 0) next_day start_date) with start_date.
    rewrite collect_workdays_step.
    unfold datetime_ltb. rewrite !Z.ltb_irrefl, !andb_false_r. reflexivity.
  - rewrite (collect_workdays_split 7 start_date).
    + rewrite len_app, one_week_has_five_workdays.
      replace (Nat.iter (7 * S weeks) next_day start_date)
        with (Nat.iter (7 * weeks) next_day (Nat.iter 7 next_day start_date)).
      * rewrite IH. lia.
      * rewrite !iter_next_day. simpl. f_equal. lia.
    + rewrite !iter_next_day. unfold datetime_ltb. simpl.
      rewrite !Z.ltb_irrefl, !andb_false_r, !orb_false_r.
      apply Z.ltb_ge. lia.
    + rewrite iter_next_day. reflexivity.
Qed.

(** ** Vacation days *)

Lemma filter_all {A} (l : list A) : filter (fun _ => true) l = l.
Proof. induction l as [| x l IH]; simpl; [| rewrite IH]; reflexivity. Qed.

Lemma apply_vacation_filter (raw : list datetime) (n : Z) g used active g' :
  apply_vacation raw n g = inr ((used, active), g') ->
  exists p, active = filter p raw.
Proof.
  unfold apply_vacation. destruct (0 <? n).
  - intros H. invert_bind H. invert_ret H. eexists. reflexivity.
  - intros H. invert_ret H. exists (fun _ => true). symmetry. apply filter_all.
Qed.

Lemma StronglySorted_filter {A} (R : A -> A -> Prop) (p : A -> bool) (l : list A) :
  StronglySorted R l -> StronglySorted R (filter p l).
Proof.
  induction 1 as [| a l _ IH Hall]; simpl; [constructor |].
  destruct (p a); [| exact IH].
  constructor; [exact IH |].
  apply Forall_forall. intros b Hb. apply filter_In in Hb.
  rewrite Forall_forall in Hall. apply Hall, Hb.
Qed.

(** X9: the vacation removal keeps the remaining workdays in their order
    and adds none; the count it reports as excluded and the days it leaves
    add up to the raw workday count. *)
Theorem vacation_keeps_order_and_count (start_date end_date : datetime)
    (n : Z) (g : rng) :
  1 <= len (collect_workdays start_date end_date) ->
  0 <= n ->
  exists used active g',
    apply_vacation (collect_workdays start_date end_date) n g
    = inr ((used, active), g')
    /\ incl active (collect_workdays start_date end_date)
    /\ StronglySorted (fun a b => datetime_ltb a b = true) active
    /\ 0 <= used <= n
    /\ len active + used = len (collect_workdays start_date end_date).
Proof.
  intros Hw Hn.
  destruct (apply_vacation_spec _ n g (collect_workdays_NoDup start_date end_date) Hw Hn)
    as (used & active & g' & Hrun & Hused & Hlen).
  exists used, active, g'. split; [exact Hrun |].
  destruct (apply_vacation_filter _ _ _ _ _ _ Hrun) as (p & ->).
  split; [| split; [| split; lia]].
  - intros d Hd. apply filter_In in Hd. tauto.
  - apply StronglySorted_filter, collect_workdays_sorted.
Qed.

Lemma vacation_keeps_order_and_count_witness :
  exists used active g',
    apply_vacation (collect_workdays (midnight 2024 1 1) (midnight 2024 1 13)) 4
      (tape_of [3; 3; 0; 8])
    = inr ((used, active), g')
    /\ incl active (collect_workdays (midnight 2024 1 1) (midnight 2024 1 13))
    /\ StronglySorted (fun a b => datetime_ltb a b = true) active
    /\ 0 <= used <= 4
    /\ len active + used
       = len (collect_workdays (midnight 2024 1 1) (midnight 2024 1 13)).
Proof.
  apply (vacation_keeps_order_and_count (midnight 2024 1 1) (midnight 2024 1 13)
           4 (tape_of [3; 3; 0; 8])).
  - vm_compute. discriminate.
  - lia.
Defined.

(** ** A whole run *)

Lemma main_inv (a : args) g r g' :
  main a g = inr (r, g') ->
  exists s e used active g1 days,
    date_range a = inr (s, e)
    /\ apply_vacation (collect_workdays s e)
         (resolve_vacation_days (args_vacation_days a) (collect_workdays s e)) g
       = inr ((used, active), g1)
    /\ mapM (commits_of_workday a) active g1 = inr (days, g')
    /\ r = mkRun s e active used (List.concat days)
             (generate_shell_script (List.concat days) (args_file a)
                (args_output a)).
Proof.
  unfold main. intros H. invert_bind H. destruct a0 as [s e].
  apply lift_inr in Hm. destruct Hm as [Hrange ->].
  invert_bind H. destruct a0 as [used active].
  invert_bind H. invert_ret H.
  exists s, e, used, active, g0, a0. auto.
Qed.

Lemma resolve_vacation_days_nonneg (n : Z) (raw : list datetime) :
  0 <= resolve_vacation_days n raw.
Proof.
  unfold resolve_vacation_days, default_vacation_days.
  destruct (Z.ltb_spec n 0); lia.
Qed.

Lemma apply_vacation_empty (n : Z) g :
  0 < n -> apply_vacation [] n g = inl ValueError.
Proof.
  intros Hn. unfold apply_vacation.
  destruct (Z.ltb_spec 0 n) as [_ | Hle]; [| lia].
  apply bind_inl, sample_raises. left. change (len (@nil datetime)) with 0. lia.
Qed.

Lemma run_workdays_facts (a : args) (g : rng) (r : run) (g' : rng) :
  main a g = inr (r, g') ->
  date_range a = inr (start_date r, end_date r)
  /\ incl (workdays r) (collect_workdays (start_date r) (end_date r))
  /\ Forall (fun d => 0 <= weekday d <= 4) (workdays r)
  /\ StronglySorted (fun x y => datetime_ltb x y = true) (workdays r)
  /\ 0 <= vacation_days r
  /\ len (workdays r) + vacation_days r
     = len (collect_workdays (start_date r) (end_date r)).
Proof.
  intros Hrun.
  destruct (main_inv _ _ _ _ Hrun) as (s & e & used & active & g1 & days
                                        & Hrange & Hvac & _ & ->).
  cbn [start_date end_date workdays vacation_days].
  set (raw := collect_workdays s e) in *.
  set (n := resolve_vacation_days (args_vacation_days a) raw) in *.
  assert (Hn : 0 <= n) by apply resolve_vacation_days_nonneg.
  destruct (apply_vacation_filter _ _ _ _ _ _ Hvac) as (p & Hp).
  assert (Hincl : incl active raw).
  { subst active. intros d Hd. apply filter_In in Hd. tauto. }
  split; [exact Hrange | split; [exact Hincl | split; [| split]]].
  - apply Forall_forall. intros d Hd. apply Hincl in Hd.
    apply workdays_loop_In in Hd. destruct Hd as (Hw & _).
    unfold is_workday in Hw. apply Z.ltb_lt in Hw.
    pose proof (weekday_range d). lia.
  - subst active. apply StronglySorted_filter, collect_workdays_sorted.
  - destruct (Z.eq_dec n 0) as [Hz | Hnz].
    + rewrite Hz in Hvac. unfold apply_vacation in Hvac. simpl in Hvac.
      invert_ret Hvac. lia.
    + destruct (Z.le_gt_cases 1 (len raw)) as [Hw | Hw].
      * destruct (apply_vacation_spec raw n g (collect_workdays_NoDup s e) Hw Hn)
          as (u0 & a0 & g0 & H0 & Hu & Hl).
        rewrite Hvac in H0. injection H0 as <- <- <-. lia.
      * assert (Hnil : raw = []%list).
        { apply length_zero_iff_nil. unfold len in Hw. lia. }
        rewrite Hnil, apply_vacation_empty in Hvac by lia. discriminate.
Qed.

(** X10: the active workdays of a successful run are dates of the range
    from Monday to Friday in strictly ascending order, and together with
    the reported vacation days they are as many as the range's workdays. *)
Theorem run_active_workdays (a : args) (g : rng) (r : run) (g' : rng) :
  main a g = inr (r, g') ->
  date_range a = inr (start_date r, end_date r)
  /\ incl (workdays r) (collect_workdays (start_date r) (end_date r))
  /\ Forall (fun d => 0 <= weekday d <= 4) (workdays r)
  /\ StronglySorted (fun x y => datetime_ltb x y = true) (workdays r)
  /\ 0 <= vacation_days r
  /\ len (workdays r) + vacation_days r
     = len (collect_workdays (start_date r) (end_date r)).
Proof. exact (run_workdays_facts a g r g'). Qed.

Lemma run_active_workdays_witness :
  exists r g',
    main week_args (tape_of []) = inr (r, g')
    /\ date_range week_args = inr (start_date r, end_date r)
    /\ incl (workdays r) (collect_workdays (start_date r) (end_date r))
    /\ Forall (fun d => 0 <= weekday d <= 4) (workdays r)
    /\ StronglySorted (fun x y => datetime_ltb x y = true) (workdays r)
    /\ 0 <= vacation_days r
    /\ len (workdays r) + vacation_days r
       = len (collect_workdays (start_date r) (end_date r)).
Proof.
  destruct (main week_args (tape_of [])) as [e | [r g']] eqn:Hrun;
    [vm_compute in Hrun; discriminate |].
  exists r, g'. split; [reflexivity |].
  exact (run_active_workdays week_args (tape_of []) r g' Hrun).
Defined.

Lemma run_days (a : args) g r g' :
  main a g = inr (r, g') ->
  exists days,
    all_commits r = List.concat days
    /\ script_content r
       = generate_shell_script (all_commits r) (args_file a) (args_output a)
    /\ Forall2 (fun d cs =>
         args_min_commits a <= len cs <= args_max_commits a
         /\ exists hs, Forall2 (made_at d) hs cs
                       /\ Forall (fun h => 9 <= h < 18) hs)
         (workdays r) days.
Proof.
  intros Hrun.
  destruct (main_inv _ _ _ _ Hrun) as (s & e & used & active & g1 & days
                                        & _ & _ & Hdays & ->).
  exists days. cbn [all_commits script_content workdays].
  split; [reflexivity | split; [reflexivity |]].
  apply mapM_Forall2 in Hdays.
  eapply Forall2_impl; [| exact Hdays].
  intros d cs (g2 & g3 & Hd). apply commits_of_workday_inv in Hd.
  destruct Hd as (Hb & _ & Hex). split; assumption.
Qed.

Lemma run_commits_made (a : args) g r g' :
  main a g = inr (r, g') ->
  Forall (fun c => exists d h,
            In d (workdays r) /\ made_at d h c /\ 9 <= h < 18)
    (all_commits r).
Proof.
  intros Hrun. destruct (run_days _ _ _ _ Hrun) as (days & -> & _ & Hall).
  induction Hall as [| d cs ds days (_ & hs & Hcs & Hr) _ IH];
    [constructor |].
  cbn [List.concat]. apply Forall_app. split.
  - clear IH. induction Hcs as [| h c hs cs Hc _ IHc]; constructor.
    + inversion Hr; subst. exists d, h. split; [left; reflexivity | auto].
    + inversion Hr; subst. auto.
  - eapply Forall_impl; [| exact IH].
    intros c (d' & h & Hin & Hm & Hh). exists d', h.
    split; [right; exact Hin | auto].
Qed.

(** X11: every commit of a successful run is dated on one of the run's
    active workdays, a day from Monday to Friday, at an hour from 9 to
    17. *)
Theorem run_commits_fall_on_active_workdays (a : args) (g : rng) (r : run)
    (g' : rng) :
  main a g = inr (r, g') ->
  Forall (fun c =>
    exists d h,
      In d (workdays r)
      /\ 0 <= weekday d <= 4
      /\ date_of_timestamp (timestamp c) = date_text d
      /\ date_of_timestamp (iso_timestamp c) = date_text d
      /\ hour_of_commit c = Some h
      /\ 9 <= h < 18)
    (all_commits r).
Proof.
  intros Hrun.
  destruct (run_workdays_facts a g r g' Hrun) as (_ & _ & Hwd & _).
  eapply Forall_impl; [| exact (run_commits_made _ _ _ _ Hrun)].
  intros c (d & h & Hin & Hm & Hh). exists d, h.
  rewrite Forall_forall in Hwd.
  split; [exact Hin | split; [exact (Hwd d Hin) | split; [| split; [| split]]]].
  - exact (made_at_date _ _ _ Hm).
  - destruct Hm as (mi & s & msg & -> & _).
    unfold commit_record. cbn [iso_timestamp].
    rewrite date_of_timestamp_strftime. apply date_text_replace.
  - apply (made_at_hour d); [exact Hm | lia].
  - exact Hh.
Qed.

Lemma run_commits_fall_on_active_workdays_witness :
  exists r g',
    main week_args (tape_of []) = inr (r, g')
    /\ Forall (fun c =>
         exists d h,
           In d (workdays r)
           /\ 0 <= weekday d <= 4
           /\ date_of_timestamp (timestamp c) = date_text d
           /\ date_of_timestamp (iso_timestamp c) = date_text d
           /\ hour_of_commit c = Some h
           /\ 9 <= h < 18)
         (all_commits r).
Proof.
  destruct (main week_args (tape_of [])) as [e | [r g']] eqn:Hrun;
    [vm_compute in Hrun; discriminate |].
  exists r, g'. split; [reflexivity |].
  exact (run_commits_fall_on_active_workdays week_args (tape_of []) r g' Hrun).
Defined.

Lemma concat_len_bounds (lo hi : Z) (days : list (list commit)) :
  Forall (fun cs => lo <= len cs <= hi) days ->
  lo * len days <= len (List.concat days) <= hi * len days.
Proof.
  induction 1 as [| cs days Hcs _ IH]; [unfold len; simpl; lia |].
  cbn [List.concat]. rewrite len_app, len_cons. lia.
Qed.

(** X12: a successful run makes, in all, at least [min-commits] and at
    most [max-commits] commits for each of its active workdays. *)
Theorem run_commit_total_within_bounds (a : args) (g : rng) (r : run)
    (g' : rng) :
  main a g = inr (r, g') ->
  args_min_commits a * len (workdays r) <= len (all_commits r)
  /\ len (all_commits r) <= args_max_commits a * len (workdays r).
Proof.
  intros Hrun. destruct (run_days _ _ _ _ Hrun) as (days & -> & _ & Hall).
  assert (Hl : len (workdays r) = len days)
    by (unfold len; rewrite (Forall2_length Hall); reflexivity).
  rewrite Hl. apply concat_len_bounds.
  clear -Hall. induction Hall as [| d cs ds days (Hb & _) _ IH];
    constructor; assumption.
Qed.

Lemma run_commit_total_within_bounds_witness :
  exists r g',
    main week_args (tape_of [1; 0; 0; 0; 0; 0; 0; 2]) = inr (r, g')
    /\ args_min_commits week_args * len (workdays r) <= len (all_commits r)
    /\ len (all_commits r) <= args_max_commits week_args * len (workdays r).
Proof.
  destruct (main week_args (tape_of [1; 0; 0; 0; 0; 0; 0; 2]))
    as [e | [r g']] eqn:Hrun;
    [vm_compute in Hrun; discriminate |].
  exists r, g'. split; [reflexivity |].
  exact (run_commit_total_within_bounds week_args _ r g' Hrun).
Defined.

(** X13: when the log filename holds no line break, the text of the script
    a successful run writes splits at its line breaks into exactly the
    lines the emitter joined: eleven header lines, seven lines for each
    commit and two closing lines. *)
Theorem run_script_reads_back (a : args) (g : rng) (r : run) (g' : rng) :
  main a g = inr (r, g') ->
  string_forall not_newline (args_file a) = true ->
  split_lines (script_content r) = script_lines (all_commits r) (args_file a)
  /\ len (split_lines (script_content r)) = 13 + 7 * len (all_commits r).
Proof.
  intros Hrun Hfile.
  destruct (run_days _ _ _ _ Hrun) as (days & _ & Hscript & _).
  assert (Hlines : split_lines (script_content r)
                   = script_lines (all_commits r) (args_file a)).
  { rewrite Hscript. apply script_text_lines; [exact Hfile |].
    eapply Forall_impl; [| exact (run_commits_made _ _ _ _ Hrun)].
    intros c (d & h & _ & Hm & _). exact (made_at_on_one_line _ _ _ Hm). }
  split; [exact Hlines |]. rewrite Hlines.
  unfold script_lines. rewrite !len_app.
  assert (Hblocks : forall cs, len (flat_map commit_block cs) = 7 * len cs).
  { induction cs as [| c cs IH]; [reflexivity |].
    cbn [flat_map]. rewrite len_app, IH, len_cons.
    change (len (commit_block c)) with 7. lia. }
  rewrite Hblocks.
  match goal with
  | |- len ?h + (_ + len ?f) = _ => change (len h) with 11; change (len f) with 2
  end.
  lia.
Qed.

Lemma run_script_reads_back_witness :
  exists r g',
    main week_args (tape_of []) = inr (r, g')
    /\ split_lines (script_content r)
       = script_lines (all_commits r) (args_file week_args)
    /\ len (split_lines (script_content r)) = 13 + 7 * len (all_commits r).
Proof.
  destruct (main week_args (tape_of [])) as [e | [r g']] eqn:Hrun;
    [vm_compute in Hrun; discriminate |].
  exists r, g'. split; [reflexivity |].
  apply (run_script_reads_back week_args (tape_of []) r g' Hrun).
  reflexivity.
Defined.

(** ** A range without workdays *)



(** ** The date range *)

Lemma datetime_ymd_midnight (y m d : Z) (t : datetime) :
  datetime_ymd y m d = inr t ->
  (hour t, minute t, second t) = (0, 0, 0) /\ 1 <= y <= 9999.
Proof.
  unfold datetime_ymd.
  destruct ((1 <=? y) && (y <=? 9999) && (1 <=? m) && (m <=? 12)
            && (1 <=? d) && (d <=? days_in_month y m)) eqn:E; [| discriminate].
  intros H. injection H as <-. split; [reflexivity |].
  repeat (apply andb_prop in E; destruct E as [E ?]).
  apply Z.leb_le in E. lia.
Qed.

Lemma strptime_midnight (s : string) (t : datetime) :
  strptime s = inr t -> (hour t, minute t, second t) = (0, 0, 0).
Proof.
  unfold strptime.
  repeat match goal with
         | |- context [match ?x with _ => _ end] => destruct x; try discriminate
         end.
  intros H. apply datetime_ymd_midnight in H. tauto.
Qed.

Lemma date_range_start_midnight (a : args) (s e : datetime) :
  date_range a = inr (s, e) -> (hour s, minute s, second s) = (0, 0, 0).
Proof.
  unfold date_range.
  destruct (given (args_start_date a)) as [str |].
  - destruct (strptime str) as [x | t] eqn:Ht; [discriminate |].
    apply strptime_midnight in Ht.
    destruct (match given (args_end_date a) with Some _ => _ | None => _ end);
      [discriminate |].
    intros H. injection H as <- _. exact Ht.
  - destruct (datetime_ymd (args_year a) 1 1) as [x | t] eqn:Ht; [discriminate |].
    apply datetime_ymd_midnight in Ht.
    destruct (match given (args_end_date a) with Some _ => _ | None => _ end);
      [discriminate |].
    intros H. injection H as <- _. tauto.
Qed.

(** X15: the day named by [--end-date] is part of the range: when it is a
    workday not before the start, it is in the workday sequence. *)
Theorem end_date_is_included (a : args) (text : string)
    (start_date end_date d : datetime) :
  given (args_end_date a) = Some text ->
  strptime text = inr d ->
  date_range a = inr (start_date, end_date) ->
  datetime_ltb d start_date = false ->
  is_workday d = true ->
  end_date = next_day d /\ In d (collect_workdays start_date end_date).
Proof.
  intros Hgiven Hparse Hrange Hle Hw.
  pose proof (date_range_start_midnight _ _ _ Hrange) as Hs.
  pose proof (strptime_midnight _ _ Hparse) as Hd.
  assert (He : end_date = next_day d).
  { unfold date_range in Hrange. rewrite Hgiven, Hparse in Hrange.
    destruct (match given (args_start_date a) with Some _ => _ | None => _ end);
      [discriminate |].
    unfold add_days in Hrange.
    destruct ((1 <=? ordinal d + 1) && (ordinal d + 1 <=? MAXORDINAL));
      [| discriminate].
    injection Hrange as _ <-. reflexivity. }
  split; [exact He |]. subst end_date.
  injection Hs as Hsh Hsm Hss. injection Hd as Hdh Hdm Hds.
  assert (Hord : ordinal start_date <= ordinal d).
  { unfold datetime_ltb in Hle.
    destruct (Z.ltb_spec (ordinal d) (ordinal start_date)); [discriminate | lia]. }
  assert (Hiter : d = Nat.iter (Z.to_nat (ordinal d - ordinal start_date))
                        next_day start_date).
  { rewrite iter_next_day. destruct d as [o h m s]. simpl in *. subst.
    rewrite Hsh, Hsm, Hss. f_equal. lia. }
  rewrite Hiter at 1. apply collect_workdays_complete; rewrite <- Hiter.
  - apply datetime_ltb_before. simpl. lia.
  - exact Hw.
Qed.

Lemma end_date_is_included_witness :
  midnight 2024 1 6 = next_day (midnight 2024 1 5)
  /\ In (midnight 2024 1 5)
       (collect_workdays (midnight 2024 1 1) (midnight 2024 1 6)).
Proof.
  apply (end_date_is_included example_args "2024-01-05"
           (midnight 2024 1 1) (midnight 2024 1 6) (midnight 2024 1 5));
    reflexivity.
Defined.

(** X16: without date flags and with the default twelve months the range
    is the 360 days from January 1 of the year, so no workday of the
    sequence is on or after December 27. *)
Theorem default_range_stops_before_december_27 (a : args)
    (start_date end_date : datetime) :
  given (args_start_date a) = None ->
  given (args_end_date a) = None ->
  args_months a = 12 ->
  date_range a = inr (start_date, end_date) ->
  ordinal start_date = ymd2ord (args_year a) 1 1
  /\ ordinal end_date = ordinal start_date + 360
  /\ Forall (fun d => ordinal d < ymd2ord (args_year a) 12 27)
       (collect_workdays start_date end_date).
Proof.
  intros Hs He Hm Hrange. unfold date_range in Hrange.
  rewrite Hs, He, Hm in Hrange.
  destruct (datetime_ymd (args_year a) 1 1) as [x | t] eqn:Ht; [discriminate |].
  unfold add_days in Hrange.
  destruct ((1 <=? ordinal t + 30 * 12) && (ordinal t + 30 * 12 <=? MAXORDINAL));
    [| discriminate].
  injection Hrange as <- <-.
  unfold datetime_ymd in Ht.
  destruct ((1 <=? args_year a) && (args_year a <=? 9999) && (1 <=? 1)
            && (1 <=? 12) && (1 <=? 1) && (1 <=? days_in_month (args_year a) 1));
    [| discriminate].
  injection Ht as <-. cbn [ordinal].
  split; [reflexivity | split; [lia |]].
  apply Forall_forall. intros d Hd. apply workdays_loop_In in Hd.
  destruct Hd as (_ & _ & Hlt & Htime).
  cbn [hour minute second] in Htime. injection Htime as Hh Hmi Hse.
  assert (Hstrict : ordinal d < ymd2ord (args_year a) 1 1 + 30 * 12).
  { unfold datetime_ltb in Hlt. cbn [ordinal hour minute second] in Hlt.
    rewrite Hh, Hmi, Hse in Hlt.
    apply orb_prop in Hlt. destruct Hlt as [Hlt | Hlt].
    - apply Z.ltb_lt in Hlt. lia.
    - apply andb_prop in Hlt. destruct Hlt as [_ Hlt]. cbv in Hlt.
      discriminate. }
  revert Hstrict. unfold ymd2ord, days_before_month.
  change (nth (Z.to_nat 12) DAYS_BEFORE_MONTH 0) with 334.
  change (nth (Z.to_nat 1) DAYS_BEFORE_MONTH 0) with 0.
  change (2 <? 12) with true. change (2 <? 1) with false. cbn [andb].
  destruct (is_leap (args_year a)); lia.
Qed.

Lemma default_range_stops_before_december_27_witness :
  ordinal (midnight 2024 1 1) = ymd2ord (args_year (year_args 2024)) 1 1
  /\ ordinal (mkDatetime (ymd2ord 2024 1 1 + 360) 0 0 0)
     = ordinal (midnight 2024 1 1) + 360
  /\ Forall (fun d => ordinal d < ymd2ord (args_year (year_args 2024)) 12 27)
       (collect_workdays (midnight 2024 1 1)
          (mkDatetime (ymd2ord 2024 1 1 + 360) 0 0 0)).
Proof.
  apply (default_range_stops_before_december_27 (year_args 2024)
           (midnight 2024 1 1) (mkDatetime (ymd2ord 2024 1 1 + 360) 0 0 0));
    reflexivity.
Defined.

(** ** Messages by time of day *)

Lemma render_literals (kw : list (string * string)) (template : string)
    (ps : list piece) :
  parse_format None template = inr ps ->
  forallb (fun pc => match pc with Lit _ => true | Field _ => false end) ps
  = true ->
  string_forall not_brace template = true ->
  format template kw = inr template.
Proof.
  intros Hparse Hlit Hnb. unfold format. rewrite Hparse.
  assert (Hgen : forall s ps',
             string_forall not_brace s = true ->
             parse_format None s = inr ps' -> render kw ps' = inr s).
  { clear. induction s as [| c s IH]; intros ps' Hnb Hp.
    - simpl in Hp. injection Hp as <-. reflexivity.
    - cbn [string_forall] in Hnb. apply andb_prop in Hnb.
      destruct Hnb as [Hc Hs]. unfold not_brace in Hc.
      apply negb_true_iff, orb_false_iff in Hc. destruct Hc as [Ho Hcl].
      cbn [parse_format] in Hp. rewrite Ho, Hcl in Hp.
      destruct (parse_format None s) as [e | ps0] eqn:Hs0; [discriminate |].
      simpl in Hp. injection Hp as <-.
      cbn [render]. rewrite (IH ps0 Hs eq_refl). reflexivity. }
  exact (Hgen template ps Hnb Hparse).
Qed.

(** X17: a commit made before 10 o'clock carries one of the five morning
    messages, word for word. *)
Theorem morning_commit_has_morning_message (hour : Z) (g : rng) :
  hour < 10 ->
  exists msg g',
    generate_commit_message hour g = inr (msg, g')
    /\ lookup "morning" COMMIT_MESSAGES = inr
         [ "Start day: review PR queue and plan tasks";
           "Daily standup notes and sprint planning";
           "Check overnight builds and CI status";
           "Morning sync: align on priorities";
           "Review emails and update task board" ]
    /\ In msg
         [ "Start day: review PR queue and plan tasks";
           "Daily standup notes and sprint planning";
           "Check overnight builds and CI status";
           "Morning sync: align on priorities";
           "Review emails and update task board" ].
Proof.
  intros Hh. unfold generate_commit_message, choose_category.
  destruct (Z.ltb_spec hour 10) as [_ | Hge]; [| lia].
  unfold ret at 1. unfold bind at 1.
  change (lookup "morning" COMMIT_MESSAGES)
    with (@inr exn (list string)
            [ "Start day: review PR queue and plan tasks";
              "Daily standup notes and sprint planning";
              "Check overnight builds and CI status";
              "Morning sync: align on priorities";
              "Review emails and update task board" ]).
  unfold lift at 1, ret at 1, bind at 1.
  match goal with
  | |- context [Random.choice ?l] =>
      destruct (choice_total l g) as (template & g1 & Hch); [discriminate |]
  end.
  destruct (draw_fillers_spec g1) as (kw & g2 & Hdraw & _).
  exists template, g2.
  pose proof (choice_In _ _ _ _ Hch) as Hin.
  split; [| split; [reflexivity | exact Hin]].
  rewrite (bind_step _ _ _ _ _ Hch), (bind_step _ _ _ _ _ Hdraw).
  assert (Hf : format template kw = inr template).
  { simpl in Hin.
    repeat (destruct Hin as [<- | Hin];
            [eapply render_literals; reflexivity |]).
    contradiction. }
  rewrite Hf. reflexivity.
Qed.

Lemma morning_commit_has_morning_message_witness :
  exists msg g',
    generate_commit_message 9 (tape_of [3]) = inr (msg, g')
    /\ lookup "morning" COMMIT_MESSAGES = inr
         [ "Start day: review PR queue and plan tasks";
           "Daily standup notes and sprint planning";
           "Check overnight builds and CI status";
           "Morning sync: align on priorities";
           "Review emails and update task board" ]
    /\ In msg
         [ "Start day: review PR queue and plan tasks";
           "Daily standup notes and sprint planning";
           "Check overnight builds and CI status";
           "Morning sync: align on priorities";
           "Review emails and update task board" ].
Proof.
  apply (morning_commit_has_morning_message 9 (tape_of [3])). lia.
Defined.

Lemma string_app_nil_r (s : string) : s ++ "" = s.
Proof. induction s as [| c s IH]; simpl; [| rewrite IH]; reflexivity. Qed.

Lemma draw_fillers_shape g :
  exists c i s p f g',
    draw_fillers g
    = inr ([ ("component", c); ("issue", i); ("symptom", s); ("pr", p);
             ("feature", f) ]%list, g')
    /\ In f FEATURES.
Proof.
  unfold draw_fillers.
  destruct (choice_total COMPONENTS g) as (c & g1 & Hc1); [discriminate |].
  destruct (choice_total ISSUES g1) as (i & g2 & Hc2); [discriminate |].
  destruct (choice_total SYMPTOMS g2) as (s & g3 & Hc3); [discriminate |].
  destruct (choice_total PRS g3) as (p & g4 & Hc4); [discriminate |].
  destruct (choice_total FEATURES g4) as (f & g5 & Hc5); [discriminate |].
  exists c, i, s, p, f, g5. split; [| exact (choice_In _ _ _ _ Hc5)].
  rewrite (bind_step _ _ _ _ _ Hc1), (bind_step _ _ _ _ _ Hc2),
    (bind_step _ _ _ _ _ Hc3), (bind_step _ _ _ _ _ Hc4),
    (bind_step _ _ _ _ _ Hc5). reflexivity.
Qed.

(** X18: a commit made from 17 o'clock on carries one of the five
    end-of-day messages, about one of the listed features. *)
Theorem evening_commit_has_end_of_day_message (hour : Z) (g : rng) :
  17 <= hour ->
  exists msg g' feature,
    generate_commit_message hour g = inr (msg, g')
    /\ In feature FEATURES
    /\ In msg
         [ "Wrap up: commit WIP on " ++ feature;
           "End of day: save progress on " ++ feature;
           "Checkpoint: " ++ feature ++ " progress";
           "Daily commit: " ++ feature ++ " updates";
           "Push EOD changes for " ++ feature ].
Proof.
  intros Hh. unfold generate_commit_message, choose_category.
  destruct (Z.ltb_spec hour 10); [lia |].
  destruct (Z.ltb_spec hour 12); [lia |].
  destruct (Z.ltb_spec hour 14); [lia |].
  destruct (Z.ltb_spec hour 17); [lia |].
  unfold ret at 1. unfold bind at 1.
  change (lookup "endofday" COMMIT_MESSAGES)
    with (@inr exn (list string)
            [ "Wrap up: commit WIP on {feature}";
              "End of day: save progress on {feature}";
              "Checkpoint: {feature} progress";
              "Daily commit: {feature} updates";
              "Push EOD changes for {feature}" ]).
  unfold lift at 1, ret at 1, bind at 1.
  match goal with
  | |- context [Random.choice ?l] =>
      destruct (choice_total l g) as (template & g1 & Hch); [discriminate |]
  end.
  pose proof (choice_In _ _ _ _ Hch) as Hin.
  destruct (draw_fillers_shape g1) as (c & i & s & p & f & g2 & Hdraw & Hf).
  rewrite (bind_step _ _ _ _ _ Hch), (bind_step _ _ _ _ _ Hdraw).
  simpl in Hin.
  repeat (destruct Hin as [<- | Hin];
          [eexists _, g2, f; split;
           [reflexivity
           | split; [exact Hf |];
             cbn [append]; rewrite ?string_app_nil_r; simpl; tauto] |]).
  contradiction.
Qed.

Lemma evening_commit_has_end_of_day_message_witness :
  exists msg g' feature,
    generate_commit_message 17 (tape_of [2; 0; 0; 0; 0; 6]) = inr (msg, g')
    /\ In feature FEATURES
    /\ In msg
         [ "Wrap up: commit WIP on " ++ feature;
           "End of day: save progress on " ++ feature;
           "Checkpoint: " ++ feature ++ " progress";
           "Daily commit: " ++ feature ++ " updates";
           "Push EOD changes for " ++ feature ].
Proof.
  apply (evening_commit_has_end_of_day_message 17 (tape_of [2; 0; 0; 0; 0; 6])).
  lia.
Defined.

(** ** Dates and log lines in the script *)





Lemma last_solid_nonempty (s : string) : last_solid s = true -> s <> "".
Proof. destruct s; [discriminate | discriminate]. Qed.










(** ** The default vacation count of a run *)

Lemma days_before_year_nonneg (y : Z) : 1 <= y -> 0 <= days_before_year y.
Proof.
  intros Hy. unfold days_before_year. cbv zeta.
  pose proof (Z.div_mod (y - 1) 4 ltac:(lia)).
  pose proof (Z.mod_pos_bound (y - 1) 4 ltac:(lia)).
  pose proof (Z.div_mod (y - 1) 100 ltac:(lia)).
  pose proof (Z.mod_pos_bound (y - 1) 100 ltac:(lia)).
  pose proof (Z.div_mod (y - 1) 400 ltac:(lia)).
  pose proof (Z.mod_pos_bound (y - 1) 400 ltac:(lia)).
  lia.
Qed.

Lemma datetime_ymd_ordinal (y m d : Z) (t : datetime) :
  datetime_ymd y m d = inr t -> 1 <= ordinal t.
Proof.
  unfold datetime_ymd.
  destruct ((1 <=? y) && (y <=? 9999) && (1 <=? m) && (m <=? 12)
            && (1 <=? d) && (d <=? days_in_month y m)) eqn:E; [| discriminate].
  intros H. injection H as <-. cbn [ordinal].
  repeat (apply andb_prop in E; destruct E as [E ?]).
  repeat match goal with
         | H : (_ <=? _) = true |- _ => apply Z.leb_le in H
         end.
  pose proof (days_before_year_nonneg y ltac:(lia)).
  assert (Hm : 0 <= days_before_month y m).
  { unfold days_before_month.
    assert (Hc : m = 1 \/ m = 2 \/ m = 3 \/ m = 4 \/ m = 5 \/ m = 6 \/ m = 7
                 \/ m = 8 \/ m = 9 \/ m = 10 \/ m = 11 \/ m = 12) by lia.
    repeat (destruct Hc as [-> | Hc];
            [destruct (is_leap y); cbv; discriminate |]).
    subst m. destruct (is_leap y); cbv; discriminate. }
  unfold ymd2ord. lia.
Qed.

Lemma strptime_ordinal (s : string) (t : datetime) :
  strptime s = inr t -> 1 <= ordinal t.
Proof.
  unfold strptime.
  repeat match goal with
         | |- context [match ?x with _ => _ end] => destruct x; try discriminate
         end.
  apply datetime_ymd_ordinal.
Qed.

Lemma date_range_bounds (a : args) (s e : datetime) :
  date_range a = inr (s, e) -> 1 <= ordinal s /\ ordinal e <= MAXORDINAL.
Proof.
  unfold date_range. intros H.
  assert (Hstart : forall r : exn + datetime,
             r = match given (args_start_date a) with
                 | Some s0 => strptime s0
                 | None => datetime_ymd (args_year a) 1 1
                 end ->
             forall t, r = inr t -> 1 <= ordinal t).
  { intros r -> t Ht. destruct (given (args_start_date a)).
    - exact (strptime_ordinal _ _ Ht).
    - exact (datetime_ymd_ordinal _ _ _ _ Ht). }
  specialize (Hstart _ eq_refl).
  destruct (match given (args_start_date a) with
            | Some s0 => strptime s0
            | None => datetime_ymd (args_year a) 1 1
            end) as [x | t]; [discriminate |].
  specialize (Hstart t eq_refl).
  assert (Hadd : forall d n t', add_days d n = inr t' -> ordinal t' <= MAXORDINAL).
  { intros d n t'. unfold add_days.
    destruct ((1 <=? ordinal d + n) && (ordinal d + n <=? MAXORDINAL)) eqn:E;
      [| discriminate].
    intros Ht. injection Ht as <-. cbn [ordinal].
    apply andb_prop in E. destruct E as [_ E]. apply Z.leb_le in E. exact E. }
  destruct (given (args_end_date a)) as [text |].
  - destruct (strptime text) as [x | d]; [discriminate |].
    destruct (add_days d 1) as [x | t'] eqn:Ha; [discriminate |].
    injection H as <- <-. split; [exact Hstart | exact (Hadd _ _ _ Ha)].
  - destruct (add_days t (30 * args_months a)) as [x | t'] eqn:Ha; [discriminate |].
    injection H as <- <-. split; [exact Hstart | exact (Hadd _ _ _ Ha)].
Qed.

Lemma workdays_loop_length (fuel : nat) (current end_date : datetime) :
  (List.length (workdays_loop fuel current end_date) <= fuel)%nat.
Proof.
  revert current. induction fuel as [| fuel IH]; intros current; simpl; [lia |].
  destruct (datetime_ltb current end_date); [| simpl; lia].
  specialize (IH (next_day current)).
  destruct (is_workday current); simpl; lia.
Qed.

Lemma collect_workdays_len_bound (s e : datetime) :
  1 <= ordinal s -> ordinal e <= MAXORDINAL ->
  0 <= len (collect_workdays s e) <= MAXORDINAL.
Proof.
  intros Hs He. split; [apply len_nonneg |].
  unfold len, collect_workdays.
  pose proof (workdays_loop_length
                (Z.to_nat (ordinal e - ordinal s + 1)) s e) as Hl.
  unfold MAXORDINAL in *. lia.
Qed.

(** C2, as the code has it: in every successful run with a negative
    vacation-day argument, the default count is max(1, floor(0.08 x
    workday count)), the product truncated by [int] and not rounded, and
    the count the run uses is that default clamped to the workday count
    less one. *)
Theorem default_vacation_days_truncates (a : args) (g : rng) (r : run)
    (g' : rng) :
  main a g = inr (r, g') ->
  args_vacation_days a < 0 ->
  resolve_vacation_days (args_vacation_days a)
    (collect_workdays (start_date r) (end_date r))
  = Z.max 1 (8 * len (collect_workdays (start_date r) (end_date r)) / 100)
  /\ vacation_days r
     = Z.min
         (Z.max 1 (8 * len (collect_workdays (start_date r) (end_date r)) / 100))
         (len (collect_workdays (start_date r) (end_date r)) - 1).
Proof.
  intros Hrun Hneg.
  destruct (main_inv _ _ _ _ Hrun) as (s & e & used & active & g1 & days
                                        & Hrange & Hvac & _ & ->).
  cbn [start_date end_date vacation_days].
  destruct (date_range_bounds _ _ _ Hrange) as (Hs & He).
  pose proof (collect_workdays_len_bound s e Hs He) as Hw.
  assert (Hdef : resolve_vacation_days (args_vacation_days a)
                   (collect_workdays s e)
                 = Z.max 1 (8 * len (collect_workdays s e) / 100)).
  { unfold resolve_vacation_days.
    destruct (Z.ltb_spec (args_vacation_days a) 0) as [_ | Hge]; [| lia].
    apply default_vacation_days_floor. exact Hw. }
  split; [exact Hdef |].
  rewrite Hdef in Hvac. unfold apply_vacation in Hvac.
  destruct (Z.ltb_spec 0 (Z.max 1 (8 * len (collect_workdays s e) / 100)))
    as [_ | Hle]; [| lia].
  invert_bind Hvac. invert_ret Hvac. reflexivity.
Qed.

Lemma default_vacation_days_truncates_witness :
  exists r g',
    main january_args (tape_of []) = inr (r, g')
    /\ resolve_vacation_days (args_vacation_days january_args)
         (collect_workdays (start_date r) (end_date r))
       = Z.max 1 (8 * len (collect_workdays (start_date r) (end_date r)) / 100)
    /\ vacation_days r
       = Z.min
           (Z.max 1
              (8 * len (collect_workdays (start_date r) (end_date r)) / 100))
           (len (collect_workdays (start_date r) (end_date r)) - 1).
Proof.
  destruct (main january_args (tape_of [])) as [e | [r g']] eqn:Hrun;
    [vm_compute in Hrun; discriminate |].
  exists r, g'. split; [reflexivity |].
  apply (default_vacation_days_truncates january_args (tape_of []) r g' Hrun).
  simpl. lia.
Defined.

(** C2 as stated fails.  The run over the 19 workdays from 2024-01-01 to
    2024-01-25 uses one vacation day where 0.08 x 19 = 1.52 rounds to 2;
    the run over the single workday 2024-01-01 uses none where
    max(1, round(0.08)) is 1. *)
Lemma default_vacation_days_not_rounded :
  (exists r g',
     main january_args (tape_of []) = inr (r, g')
     /\ len (collect_workdays (start_date r) (end_date r)) = 19
     /\ vacation_days r = 1
     /\ spec_default_vacation_days 19 = 2)
  /\ (exists r g',
        main one_day_args (tape_of []) = inr (r, g')
        /\ len (collect_workdays (start_date r) (end_date r)) = 1
        /\ vacation_days r = 0
        /\ spec_default_vacation_days 1 = 1).
Proof.
  split.
  - destruct (main january_args (tape_of [])) as [e | [r g']] eqn:Hrun;
      [vm_compute in Hrun; discriminate |].
    exists r, g'. split; [reflexivity |].
    vm_compute in Hrun. injection Hrun as <- _.
    repeat split; vm_compute; reflexivity.
  - destruct (main one_day_args (tape_of [])) as [e | [r g']] eqn:Hrun;
      [vm_compute in Hrun; discriminate |].
    exists r, g'. split; [reflexivity |].
    vm_compute in Hrun. injection Hrun as <- _.
    repeat split; vm_compute; reflexivity.
Qed.
